(** * Latent keyframe nodes: a shallow embedding of
      [control/latent_keyframe_nodes.py] and the properties of its four
      entry points (single add, index-string parser, interpolation curve,
      batched strengths).

    Python integers are [Z]; Python floats and numpy's float64 arrays are
    binary64 values ([PrimFloat.float]) and lists of them; strings are
    [string] (characters below code point 256); exceptions are values of
    [exn] returned instead of raised; the objects that the entry points
    share with their callers (keyframe groups) live in an explicit heap. *)

From Stdlib Require Import ZArith String Ascii List Bool Lia.
From Stdlib Require Import Floats.PrimFloat Numbers.Cyclic.Int63.Uint63.
From stdpp Require Import gmap strings list fin_maps.

Local Open Scope string_scope.
Local Open Scope list_scope.
Local Open Scope Z_scope.

(** ** Exceptions *)

(** The messages of the [IndexError]s raised by this file, with the values
    their f-strings interpolate.  [ArrayIndexOutOfBounds] is numpy's own:
    indexing position [index] of an array of [size] elements. *)
Inductive index_error : Type :=
  | OutOfRange (index latent_count : Z)
  | NegativeNotAllowed (index : Z)
  | ConvertedOutOfRange (index conv_index latent_count : Z)
  | ArrayIndexOutOfBounds (index : Z) (size : nat).

(** The messages of the [ValueError]s.  [NegativeSamples] is numpy's
    [linspace] refusing a negative [num]; [ExpectedIterable] carries the
    type of the value received, from which the message is built
    ([type(strengths).__repr__]). *)
Inductive value_error : Type :=
  | NotAnInteger (raw_index : string)
  | NotAFloat (strength_str : string)
  | NegativeStrength (strength : float)
  | FromGreaterThanTo
  | MixedSign
  | NegativeSamples (num : Z)
  | ExpectedIterable (received_type : string).

Inductive exn : Type :=
  | IndexError (msg : index_error)
  | ValueError (msg : value_error)
  | NameError (name : string)
  | UnboundLocalError (name : string).

(** A computation that returns or raises. *)
Inductive result (A : Type) : Type :=
  | Ok (a : A)
  | Raise (e : exn).
Arguments Ok {A} a.
Arguments Raise {A} e.

#[global] Instance result_ret : MRet result := fun _ a => Ok a.
#[global] Instance result_bind : MBind result := fun _ _ f m =>
  match m with
  | Ok a => f a
  | Raise e => Raise e
  end.

(** [for x in xs: acc = body(x, acc)], stopping at the first exception. *)
Fixpoint for_each {A S : Type} (body : A -> S -> result S) (xs : list A) (acc : S)
  : result S :=
  match xs with
  | [] => Ok acc
  | x :: rest =>
      match body x acc with
      | Ok acc' => for_each body rest acc'
      | Raise e => Raise e
      end
  end.

(** ** Python strings *)

Module PyStr.

(** [str.isspace] on one character (code points below 256). *)
Definition is_space (c : ascii) : bool :=
  let n := N_of_ascii c in
  ((9 <=? n) && (n <=? 13) || (28 <=? n) && (n <=? 32) || (n =? 133) || (n =? 160))%N.

Fixpoint lstrip (s : string) : string :=
  match s with
  | String c rest => if is_space c then lstrip rest else s
  | EmptyString => EmptyString
  end.

Fixpoint rstrip (s : string) : string :=
  match s with
  | String c rest =>
      match rstrip rest with
      | EmptyString => if is_space c then EmptyString else String c EmptyString
      | rest' => String c rest'
      end
  | EmptyString => EmptyString
  end.

(** [s.strip()] *)
Definition strip (s : string) : string := rstrip (lstrip s).

(** [sep in s] for a one-character [sep]. *)
Fixpoint contains (sep : ascii) (s : string) : bool :=
  match s with
  | String c rest => Ascii.eqb c sep || contains sep rest
  | EmptyString => false
  end.

(** [s.split(sep, 1)]: the text before the first [sep] and the text after
    it, or [s] alone when it has no [sep]. *)
Fixpoint split_once (sep : ascii) (s : string) : list string :=
  match s with
  | String c rest =>
      if Ascii.eqb c sep then [EmptyString; rest]
      else match split_once sep rest with
           | head :: tail => String c head :: tail
           | [] => [String c EmptyString]
           end
  | EmptyString => [EmptyString]
  end.

(** [s.split(sep)]: every piece between separators; never empty. *)
Fixpoint split (sep : ascii) (s : string) : list string :=
  match s with
  | String c rest =>
      if Ascii.eqb c sep then EmptyString :: split sep rest
      else match split sep rest with
           | head :: tail => String c head :: tail
           | [] => [String c EmptyString]
           end
  | EmptyString => [EmptyString]
  end.

Definition digit_of (c : ascii) : option Z :=
  let n := Z.of_N (N_of_ascii c) in
  if (48 <=? n) && (n <=? 57) then Some (n - 48) else None.

(** The digits of an integer literal after the first one: digits, each
    optionally preceded by a single underscore. *)
Fixpoint int_digits (acc : Z) (after_underscore : bool) (s : string) : option Z :=
  match s with
  | EmptyString => if after_underscore then None else Some acc
  | String c rest =>
      match digit_of c with
      | Some d => int_digits (acc * 10 + d) false rest
      | None =>
          if Ascii.eqb c "_" && negb after_underscore
          then int_digits acc true rest
          else None
      end
  end.

Definition int_literal (s : string) : option Z :=
  match s with
  | String c rest =>
      match digit_of c with
      | Some d => int_digits d false rest
      | None => None
      end
  | EmptyString => None
  end.

(** [int(raw)] in base 10: surrounding white space, an optional sign,
    decimal digits.  [None] stands for the built-in's [ValueError]. *)
Definition int (raw : string) : option Z :=
  match strip raw with
  | String "-" rest => Z.opp <$> int_literal rest
  | String "+" rest => int_literal rest
  | s => int_literal s
  end.

End PyStr.

(** ** Python sequences *)

(** An index of a slice brought into [0..len], as [seq[start:stop]] does. *)
Definition clamp_index (len i : Z) : Z :=
  if i <? 0 then Z.max (i + len) 0 else Z.min i len.

(** [xs[start:stop]]; [None] is an omitted bound. *)
Definition py_slice {A : Type} (start stop : option Z) (xs : list A) : list A :=
  let len := Z.of_nat (length xs) in
  let lo := match start with Some i => clamp_index len i | None => 0 end in
  let hi := match stop with Some i => clamp_index len i | None => len end in
  firstn (Z.to_nat (hi - lo)) (skipn (Z.to_nat lo) xs).

(** [list(range(lo, hi))] *)
Definition py_range (lo hi : Z) : list Z :=
  map (fun i => lo + Z.of_nat i) (seq 0 (Z.to_nat (hi - lo))).

(** ** Keyframes and keyframe groups *)

(** Modelled from the spec: the class [LatentKeyframeImport] of
    [control/control.py], which is not among the sources.  A keyframe is
    an immutable pair of a frame index and a strength. *)
Record LatentKeyframeImport : Type := Keyframe {
  batch_index : Z;
  strength : float;
}.

(** Modelled from the spec: the class [LatentKeyframeGroupImport] of
    [control/control.py], which is not among the sources.  A group is a
    mapping from frame index to keyframe, with at most one keyframe per
    index. *)
Abbreviation LatentKeyframeGroupImport := (gmap Z LatentKeyframeImport).

Module Group.

(** Modelled from the spec: the method [add] of the missing class.  It
    inserts the keyframe when its frame index is absent and does nothing
    otherwise (the first writer wins); it never raises. *)
Definition add (keyframe : LatentKeyframeImport) (g : LatentKeyframeGroupImport)
  : LatentKeyframeGroupImport :=
  match g !! batch_index keyframe with
  | Some _ => g
  | None => <[batch_index keyframe := keyframe]> g
  end.

(** Modelled from the spec: the attribute [keyframes] of the missing
    class, iterated by the entry points: every keyframe held, once, in an
    order that is stable for a given group. *)
Definition keyframes (g : LatentKeyframeGroupImport) : list LatentKeyframeImport :=
  (map_to_list g).*2.

(** Modelled from the spec: the truth value of a group; an empty group is
    falsy, as an absent one is. *)
Definition truthy (g : LatentKeyframeGroupImport) : bool := negb (Nat.eqb (size g) 0).

(** [for keyframe in ks: g.add(keyframe)] *)
Definition add_all (ks : list LatentKeyframeImport) (g : LatentKeyframeGroupImport)
  : LatentKeyframeGroupImport :=
  foldl (fun acc keyframe => add keyframe acc) g ks.

End Group.

(** Modelled from the spec: equality of keyframes as elements of the
    parser's set (the class, with its [__eq__] and [__hash__], is not among
    the sources): two keyframes are one element when index and strength
    are equal. *)
Definition keyframe_eqb (a b : LatentKeyframeImport) : bool :=
  (batch_index a =? batch_index b) && PrimFloat.eqb (strength a) (strength b).

(** [s.add(keyframe)] on a Python [set], kept as the list of its elements
    in the order they were first added.  Python leaves the order in which
    a set is iterated open; the model iterates in this order, and what is
    proved below about colliding indices holds for any order. *)
Definition set_add (keyframe : LatentKeyframeImport) (s : list LatentKeyframeImport)
  : list LatentKeyframeImport :=
  if existsb (keyframe_eqb keyframe) s then s else s ++ [keyframe].

(** ** The heap of keyframe groups *)

(** Groups are objects: an entry point receives a reference, may mutate
    the group behind it and returns a reference.  The heap maps references
    to the groups they denote. *)
Abbreviation loc := positive.
Abbreviation heap := (gmap positive (gmap Z LatentKeyframeImport)).

(** The group behind a reference. *)
Definition deref (h : heap) (l : loc) : LatentKeyframeGroupImport := default ∅ (h !! l).

(** A computation over the heap that returns or raises. *)
Definition M (A : Type) : Type := heap -> result A * heap.

Definition ret {A : Type} (a : A) : M A := fun h => (Ok a, h).

Definition bind {A B : Type} (m : M A) (f : A -> M B) : M B := fun h =>
  match m h with
  | (Ok a, h') => f a h'
  | (Raise e, h') => (Raise e, h')
  end.

(** A pure computation run inside [M]; an exception leaves the heap as it is. *)
Definition lift {A : Type} (r : result A) : M A := fun h => (r, h).

#[global] Instance M_ret : MRet M := @ret.
#[global] Instance M_bind : MBind M := fun _ _ f m => bind m f.

(** [LatentKeyframeGroupImport()]: a new, empty group at a reference that
    the heap does not hold yet. *)
Definition new_group : M loc := fun h =>
  let l := fresh (dom h) in (Ok l, <[l := ∅]> h).

(** [group.add(keyframe)] through a reference: the group is updated in place. *)
Definition group_add (l : loc) (keyframe : LatentKeyframeImport) : M unit := fun h =>
  (Ok tt, <[l := Group.add keyframe (deref h l)]> h).

(** [for x in xs: body(x)] in [M], stopping at the first exception. *)
Fixpoint for_each_M {A : Type} (body : A -> M unit) (xs : list A) : M unit :=
  match xs with
  | [] => ret tt
  | x :: rest => body x ;; for_each_M body rest
  end.

(** [for keyframe in ks: group.add(keyframe)] through a reference. *)
Definition group_add_all (l : loc) (ks : list LatentKeyframeImport) : M unit :=
  for_each_M (group_add l) ks.

(** [group.keyframes], read through a reference. *)
Definition group_keyframes (l : loc) : M (list LatentKeyframeImport) := fun h =>
  (Ok (Group.keyframes (deref h l)), h).

(** The opening lines of every entry point:
    [if not prev_latent_keyframe: prev_latent_keyframe = LatentKeyframeGroupImport()]. *)
Definition prev_or_new (prev_latent_keyframe : option loc) : M loc := fun h =>
  match prev_latent_keyframe with
  | Some l => if Group.truthy (deref h l) then (Ok l, h) else new_group h
  | None => new_group h
  end.

(** ** Names bound in the module *)

(** The global names of [latent_keyframe_nodes.py]: its imports and its
    four classes.  No built-in is called [LatentKeyframImport] either. *)
Definition module_globals : list string :=
  [ "Union"; "np"; "Iterable"; "LatentKeyframeImport"; "LatentKeyframeGroupImport";
    "logger"; "LatentKeyframeNodeImport"; "LatentKeyframeGroupNodeImport";
    "LatentKeyframeInterpolationNodeImport"; "LatentKeyframeBatchedGroupNodeImport" ].

(** Evaluating a global name at run time. *)
Definition global_name (name : string) : result unit :=
  if existsb (String.eqb name) module_globals then Ok tt else Raise (NameError name).

(** ** Single keyframe: class [LatentKeyframeNodeImport] *)

Module LatentKeyframeNodeImport.

Definition load_keyframe (batch_index : Z) (strength : float)
    (prev_latent_keyframe : option loc) : M loc :=
  prev_latent_keyframe ← prev_or_new prev_latent_keyframe;
  let keyframe := Keyframe batch_index strength in
  group_add prev_latent_keyframe keyframe ;;
  ret prev_latent_keyframe.

End LatentKeyframeNodeImport.

(** ** Index strings: class [LatentKeyframeGroupNodeImport] *)

Module LatentKeyframeGroupNodeImport.

Definition validate_index (index latent_count : Z) (is_range allow_negative : bool)
  : result Z :=
  if is_range then Ok index
  else if (0 <? latent_count) && (latent_count - 1 <? index)
  then Raise (IndexError (OutOfRange index latent_count))
  else if index <? 0 then
    if negb allow_negative then Raise (IndexError (NegativeNotAllowed index))
    else
      let conv_index := latent_count + index in
      if conv_index <? 0
      then Raise (IndexError (ConvertedOutOfRange index conv_index latent_count))
      else Ok conv_index
  else Ok index.

(** The [except ValueError] clause only meets the [ValueError] of [int];
    [validate_index] raises [IndexError]s, which pass through. *)
Definition convert_to_index_int (raw_index : string) (latent_count : Z)
    (is_range allow_negative : bool) : result Z :=
  match PyStr.int raw_index with
  | Some index => validate_index index latent_count is_range allow_negative
  | None => Raise (ValueError (NotAnInteger raw_index))
  end.

Section Parser.

(** The built-in [float] on a string; [None] stands for its [ValueError]. *)
Context (py_float : string -> option float).

(** Lines 90-100: the strength of a group and the text left of its [=].
    [split_once] gives two items here, as [g] has an [=]. *)
Definition parse_strength (g : string) : result (string * float) :=
  if PyStr.contains "=" g then
    let parts := PyStr.split_once "=" g in
    let g := PyStr.strip (nth 0 parts "") in
    let strength_str := nth 1 parts "" in
    match py_float (PyStr.strip strength_str) with
    | Some strength =>
        if (strength <? 0)%float then Raise (ValueError (NegativeStrength strength))
        else Ok (g, strength)
    | None => Raise (ValueError (NotAFloat strength_str))
    end
  else Ok (g, 1%float).

(** Lines 107-108: one keyframe per index of the slice.  The class is
    called by the name the source writes there. *)
Definition expand_range (all_indeces : list Z) (start_index end_index : Z)
    (strength : float) (chosen_indeces : list LatentKeyframeImport)
  : result (list LatentKeyframeImport) :=
  for_each
    (fun i chosen =>
       _ ← global_name "LatentKeyframImport";
       Ok (set_add (Keyframe i strength) chosen))
    (py_slice (Some start_index) (Some end_index) all_indeces)
    chosen_indeces.

(** Lines 90-111: the body of the loop over the groups; [chosen_indeces]
    is the set built so far. *)
Definition parse_group (latent_count : Z) (g : string)
    (chosen_indeces : list LatentKeyframeImport) : result (list LatentKeyframeImport) :=
  let all_indeces := py_range 0 latent_count in
  let allow_negative := 0 <? latent_count in
  '(g, strength) ← parse_strength g;
  if PyStr.contains ":" g then
    let index_range := map PyStr.strip (PyStr.split_once ":" g) in
    start_index ← convert_to_index_int (nth 0 index_range "") latent_count true allow_negative;
    end_index ← convert_to_index_int (nth 1 index_range "") latent_count true allow_negative;
    expand_range all_indeces start_index end_index strength chosen_indeces
  else
    _ ← global_name "LatentKeyframeImport";
    index ← convert_to_index_int g latent_count false allow_negative;
    Ok (set_add (Keyframe index strength) chosen_indeces).

Definition convert_to_latent_keyframes (latent_indeces : string) (latent_count : Z)
  : result (list LatentKeyframeImport) :=
  match latent_indeces with
  | EmptyString => Ok []
  | _ =>
      let groups := map PyStr.strip (PyStr.split "," latent_indeces) in
      for_each (parse_group latent_count) groups []
  end.

(** [latent_image_opt] is the size of the first dimension of the latent's
    samples when a latent is given. *)
Definition load_keyframes (index_strengths : string) (prev_latent_keyframe : option loc)
    (latent_image_opt : option Z) : M loc :=
  prev_latent_keyframe ← prev_or_new prev_latent_keyframe;
  curr_latent_keyframe ← new_group;
  let latent_count := match latent_image_opt with Some n => n | None => -1 end in
  latent_keyframes ← lift (convert_to_latent_keyframes index_strengths latent_count);
  group_add_all curr_latent_keyframe latent_keyframes ;;
  previous ← group_keyframes prev_latent_keyframe;
  group_add_all curr_latent_keyframe previous ;;
  ret curr_latent_keyframe.

End Parser.

End LatentKeyframeGroupNodeImport.

(** ** numpy *)

Module np.

(** An integer as a float64 (exact below 2^53). *)
Definition of_int (n : Z) : float := PrimFloat.of_uint63 (Uint63.of_Z n).

(** [np.pi] *)
Definition pi : float := 0x1.921fb54442d18p+1%float.

(** [np.arange(lo, hi)] on integers. *)
Definition arange (lo hi : Z) : list Z := py_range lo hi.

(** [y[-1] = v] *)
Fixpoint set_last (y : list float) (v : float) : list float :=
  match y with
  | [] => []
  | [_] => [v]
  | x :: rest => x :: set_last rest v
  end.

(** [np.linspace(start, stop, num)] with the end point included, as
    numpy computes it: [arange(num) * step + start] with
    [step = (stop - start) / (num - 1)], and the last sample set to [stop]. *)
Definition linspace (start stop : float) (num : Z) : result (list float) :=
  if num <? 0 then Raise (ValueError (NegativeSamples num))
  else
    let div := num - 1 in
    let delta := (stop - start)%float in
    let y := map of_int (py_range 0 num) in
    let y :=
      if 0 <? div then
        let step := (delta / of_int div)%float in
        if (step =? 0)%float
        then map (fun v => (v / of_int div * delta)%float) y
        else map (fun v => (v * step)%float) y
      else map (fun v => (v * delta)%float) y in
    let y := map (fun v => (v + start)%float) y in
    Ok (if 1 <? num then set_last y stop else y).

(** [a[i]] for [i >= 0]. *)
Definition item {A : Type} (a : list A) (i : nat) : result A :=
  match a !! i with
  | Some x => Ok x
  | None => Raise (IndexError (ArrayIndexOutOfBounds (Z.of_nat i) (length a)))
  end.

End np.

(** ** Interpolation curve: class [LatentKeyframeInterpolationNodeImport] *)

Module LatentKeyframeInterpolationNodeImport.

Section Curve.

(** [np.cos] on one float64. *)
Context (np_cos : float -> float).

(** Lines 193-200: the weights of a shape over the progress values
    [index].  For any other [interpolation] no branch assigns [weights],
    and its first use raises. *)
Definition shape_weights (interpolation : string) (strength_from strength_to : float)
    (index : list float) : result (list float) :=
  let diff := (strength_to - strength_from)%float in
  if String.eqb interpolation "linear" then
    np.linspace strength_from strength_to (Z.of_nat (length index))
  else if String.eqb interpolation "ease-in" then
    Ok (map (fun t => (diff * (t * t) + strength_from)%float) index)
  else if String.eqb interpolation "ease-out" then
    Ok (map (fun t => (diff * (1 - (1 - t) * (1 - t)) + strength_from)%float) index)
  else if String.eqb interpolation "ease-in-out" then
    Ok (map (fun t => (diff * ((1 - np_cos (t * np.pi)) / 2) + strength_from)%float) index)
  else Raise (UnboundLocalError "weights").

(** Lines 188-206: the weights of the curve and their frame numbers,
    before any dropping. *)
Definition generate (batch_index_from : Z) (strength_from : float)
    (batch_index_to_excl : Z) (strength_to : float) (interpolation : string)
    (revert_direction_at_midpoint : bool) : result (list float * list Z) :=
  let steps := batch_index_to_excl - batch_index_from in
  index ← (if revert_direction_at_midpoint
           then np.linspace 0 1 (steps / 2 + 1)
           else np.linspace 0 1 steps);
  weights ← shape_weights interpolation strength_from strength_to index;
  let weights := if revert_direction_at_midpoint then weights ++ rev weights else weights in
  let frame_numbers :=
    np.arange batch_index_from (batch_index_from + Z.of_nat (length weights)) in
  Ok (weights, frame_numbers).

(** Lines 208-212: [a[drop_count:]] on one of the two arrays. *)
Definition drop_negative_start {A : Type} (batch_index_from : Z) (a : list A) : list A :=
  if batch_index_from <? 0 then
    let drop_count := Z.abs batch_index_from in
    py_slice (Some drop_count) None a
  else a.

(** Lines 214-218: [a[:-drop_count]] on one of the two arrays. *)
Definition drop_excess_tail {A : Type} (batch_index_to_excl last_key_frame_position : Z)
    (a : list A) : list A :=
  if last_key_frame_position <? batch_index_to_excl then
    let drop_count := batch_index_to_excl - last_key_frame_position in
    py_slice None (Some (- drop_count)) a
  else a.

(** Lines 178-182: the two checks on the end points. *)
Definition check_endpoints (batch_index_from batch_index_to_excl : Z) : result unit :=
  if batch_index_to_excl <? batch_index_from
  then Raise (ValueError FromGreaterThanTo)
  else if (batch_index_from <? 0) && (0 <=? batch_index_to_excl)
  then Raise (ValueError MixedSign)
  else Ok tt.

Definition load_keyframe (batch_index_from : Z) (strength_from : float)
    (batch_index_to_excl : Z) (strength_to : float) (interpolation : string)
    (revert_direction_at_midpoint : bool) (last_key_frame_position : Z)
    (prev_latent_keyframe : option loc) : M loc :=
  lift (check_endpoints batch_index_from batch_index_to_excl) ;;
  prev_latent_keyframe ← prev_or_new prev_latent_keyframe;
  curr_latent_keyframe ← new_group;
  '(weights, frame_numbers) ←
    lift (generate batch_index_from strength_from batch_index_to_excl strength_to
            interpolation revert_direction_at_midpoint);
  let weights := drop_negative_start batch_index_from weights in
  let frame_numbers := drop_negative_start batch_index_from frame_numbers in
  let weights := drop_excess_tail batch_index_to_excl last_key_frame_position weights in
  let frame_numbers :=
    drop_excess_tail batch_index_to_excl last_key_frame_position frame_numbers in
  batch_index_from ← lift (np.item frame_numbers 0);
  for_each_M
    (fun i =>
       weight ← lift (np.item weights i);
       group_add curr_latent_keyframe (Keyframe (batch_index_from + Z.of_nat i) weight))
    (seq 0 (length frame_numbers)) ;;
  previous ← group_keyframes prev_latent_keyframe;
  group_add_all curr_latent_keyframe previous ;;
  ret curr_latent_keyframe.

End Curve.

End LatentKeyframeInterpolationNodeImport.

(** ** Batched strengths: class [LatentKeyframeBatchedGroupNodeImport] *)

(** The argument [strengths], by the three cases the entry point tells
    apart: a value whose type is exactly [float] or [int]; an instance of
    [Iterable], with its items; any other object (a [bool] or [None], for
    instance), with its type. *)
Inductive strengths_value : Type :=
  | FloatValue (x : float)
  | IntValue (n : Z)
  | IterableValue (items : list float)
  | OtherValue (type_name : string).

Module LatentKeyframeBatchedGroupNodeImport.

(** [enumerate(items)] *)
Definition enumerate {A : Type} (items : list A) : list (Z * A) :=
  imap (fun idx x => (Z.of_nat idx, x)) items.

Definition load_keyframe (strengths : strengths_value) (prev_latent_keyframe : option loc)
  : M loc :=
  prev_latent_keyframe ← prev_or_new prev_latent_keyframe;
  curr_latent_keyframe ← new_group;
  match strengths with
  | FloatValue _ | IntValue _ => ret tt
  | IterableValue items =>
      for_each_M
        (fun '(idx, strength) => group_add curr_latent_keyframe (Keyframe idx strength))
        (enumerate items)
  | OtherValue type_name => lift (Raise (ValueError (ExpectedIterable type_name)))
  end ;;
  previous ← group_keyframes prev_latent_keyframe;
  group_add_all curr_latent_keyframe previous ;;
  ret curr_latent_keyframe.

End LatentKeyframeBatchedGroupNodeImport.

(** ** Reading the result of an entry point *)

(** The group an entry point was given: the one behind the reference, or
    an empty one when no reference was passed. *)
Definition previous_group (h : heap) (prev_latent_keyframe : option loc)
  : LatentKeyframeGroupImport :=
  match prev_latent_keyframe with
  | Some l => deref h l
  | None => ∅
  end.

(** A group filled with the [generated] keyframes first and with the
    keyframes of [previous] after them, both through [add]. *)
Definition merge (generated : list LatentKeyframeImport)
    (previous : LatentKeyframeGroupImport) : LatentKeyframeGroupImport :=
  Group.add_all (Group.keyframes previous) (Group.add_all generated ∅).

(** The outcome [out] of an entry point run on the heap [h] is a
    reference that [h] did not hold, to the merge of [generated] and the
    previous group. *)
Definition returns_merge (h : heap) (prev_latent_keyframe : option loc)
    (generated : list LatentKeyframeImport) (out : result loc * heap) : Prop :=
  ∃ r, fst out = Ok r ∧ (r ∉ dom h) ∧
       snd out !! r = Some (merge generated (previous_group h prev_latent_keyframe)).

(** The keyframes that the loop of the curve entry point builds from the
    arrays left after dropping: frame numbers count up from the first one
    left. *)
Definition curve_keyframes (weights : list float) (frame_numbers : list Z)
  : list LatentKeyframeImport :=
  match frame_numbers with
  | [] => []
  | first :: _ => imap (fun i weight => Keyframe (first + Z.of_nat i) weight) weights
  end.

(** The keyframes that the batched entry point builds from its items. *)
Definition batched_keyframes (items : list float) : list LatentKeyframeImport :=
  map (fun '(idx, strength) => Keyframe idx strength)
      (LatentKeyframeBatchedGroupNodeImport.enumerate items).

(** The outcome [out] of an entry point run on the heap [h] leaves every
    group that [h] held as it was. *)
Definition keeps (h : heap) (out : result loc * heap) : Prop :=
  ∀ l, l ∈ dom h → snd out !! l = h !! l.

(** Each weight is at most the next one ([<=] on floats). *)
Fixpoint non_decreasing (weights : list float) : bool :=
  match weights with
  | a :: (b :: _) as rest => (a <=? b)%float && non_decreasing rest
  | _ => true
  end.

(** A string that is empty or starts with a character that is no space. *)
Definition starts_clean (s : string) : Prop :=
  match s with
  | EmptyString => True
  | String c _ => PyStr.is_space c = false
  end.

(** A keyframe that the index-string parser may return for the batch
    length [latent_count]: a frame index that is not negative and lies
    below a known batch length, and a strength that is not below zero. *)
Definition keyframe_ok (latent_count : Z) (k : LatentKeyframeImport) : Prop :=
  0 <= batch_index k ∧ (0 < latent_count → batch_index k < latent_count) ∧
  (strength k <? 0)%float = false.

(** The number of weights that the curve entry point generates for end
    points in order: the width of the window, or with the reversal twice
    the points of its forward half. *)
Definition pairs_generated (revert : bool) (batch_index_from batch_index_to_excl : Z) : Z :=
  let steps := batch_index_to_excl - batch_index_from in
  if revert then 2 * (steps / 2 + 1) else steps.

(** How many of [n] generated pairs the negative-start dropper cuts. *)
Definition dropped_at_start (batch_index_from n : Z) : Z :=
  if batch_index_from <? 0 then Z.min (- batch_index_from) n else 0.

(** How many of [n] generated pairs are left after both droppers. *)
Definition pairs_left (batch_index_from batch_index_to_excl last_key_frame_position n : Z) : Z :=
  let tail :=
    if last_key_frame_position <? batch_index_to_excl
    then batch_index_to_excl - last_key_frame_position else 0 in
  Z.max 0 (n - dropped_at_start batch_index_from n - tail).

(** A group that holds each keyframe under the frame index of that
    keyframe, as every group built through [add] does. *)
Definition indexed (g : LatentKeyframeGroupImport) : Prop :=
  ∀ i k, g !! i = Some k → batch_index k = i.

(** The four shapes of the curve entry point. *)
Definition shapes : list string := ["linear"; "ease-in"; "ease-out"; "ease-in-out"].

(** * Properties *)

(** ** The model on small inputs *)

Example strip_split_demo :
  map PyStr.strip (PyStr.split "," "0, 5:10=0.5 ,-1") = ["0"; "5:10=0.5"; "-1"].
Proof. reflexivity. Qed.

Example split_once_demo :
  PyStr.split_once "=" "5:10=0.5=x" = ["5:10"; "0.5=x"] ∧ PyStr.split_once ":" "7" = ["7"].
Proof. split; reflexivity. Qed.

Example int_demo :
  map PyStr.int [" -12 "; "+7"; "1_000"; "1__0"; "_1"; "- 1"; ""; "2.5"]
  = [Some (-12); Some 7; Some 1000; None; None; None; None; None].
Proof. reflexivity. Qed.

Example slice_demo :
  py_slice (Some 2) (Some (-1)) (py_range 0 6) = [2; 3; 4] ∧
  py_slice (Some 4) (Some 2) (py_range 0 6) = [] ∧
  py_slice (Some 2) (Some 5) (py_range 0 (-1)) = [].
Proof. repeat split; reflexivity. Qed.

Example linspace_demo :
  np.linspace 0 1 5 = Ok [0; 0.25; 0.5; 0.75; 1]%float ∧
  np.linspace 0 1 1 = Ok [0]%float ∧
  np.linspace 0 1 0 = Ok [].
Proof. repeat split; vm_compute; reflexivity. Qed.

Example parse_demo :
  LatentKeyframeGroupNodeImport.convert_to_latent_keyframes
    (fun s => if String.eqb s "0.5" then Some 0.5%float else None) "0, 7 = 0.5, -1, 0" 12
  = Ok [Keyframe 0 1%float; Keyframe 7 0.5%float; Keyframe 11 1%float].
Proof. vm_compute. reflexivity. Qed.

(** ** Groups *)

Lemma add_lookup (k : LatentKeyframeImport) (g : gmap Z LatentKeyframeImport) (i : Z) :
  Group.add k g !! i =
  match g !! i with
  | Some x => Some x
  | None => if decide (i = batch_index k) then Some k else None
  end.
Proof.
  unfold Group.add.
  destruct (g !! batch_index k) as [y|] eqn:Hk.
  - destruct (g !! i) as [x|] eqn:Hi; [done|].
    case_decide; [congruence|done].
  - rewrite lookup_insert. case_decide as Heq.
    + subst i. rewrite Hk. by rewrite decide_True.
    + destruct (g !! i); [done|]. by rewrite decide_False.
Qed.

Lemma add_all_cons (k : LatentKeyframeImport) (ks : list LatentKeyframeImport)
    (g : gmap Z LatentKeyframeImport) :
  Group.add_all (k :: ks) g = Group.add_all ks (Group.add k g).
Proof. reflexivity. Qed.

Lemma add_all_app (ks1 ks2 : list LatentKeyframeImport) (g : gmap Z LatentKeyframeImport) :
  Group.add_all (ks1 ++ ks2) g = Group.add_all ks2 (Group.add_all ks1 g).
Proof. unfold Group.add_all. apply foldl_app. Qed.

(** An index that a group holds keeps its keyframe whatever is added. *)
Lemma add_all_keeps (ks : list LatentKeyframeImport) (g : gmap Z LatentKeyframeImport)
    (i : Z) (x : LatentKeyframeImport) :
  g !! i = Some x → Group.add_all ks g !! i = Some x.
Proof.
  revert g. induction ks as [|k ks IH]; intros g Hi; [done|].
  rewrite add_all_cons. apply IH. by rewrite add_lookup, Hi.
Qed.

(** What adding a list finds at an index the group did not hold: the first
    keyframe of the list with that index. *)
Lemma add_all_fresh (ks : list LatentKeyframeImport) (g : gmap Z LatentKeyframeImport)
    (i : Z) :
  g !! i = None →
  Group.add_all ks g !! i = List.find (fun k => bool_decide (batch_index k = i)) ks.
Proof.
  revert g. induction ks as [|k ks IH]; intros g Hi; [done|].
  rewrite add_all_cons. cbn [List.find].
  case_bool_decide as Heq.
  - apply add_all_keeps. rewrite add_lookup, Hi. by rewrite decide_True.
  - apply IH. rewrite add_lookup, Hi. by rewrite decide_False.
Qed.

Lemma keyframes_empty : Group.keyframes ∅ = [].
Proof. unfold Group.keyframes. by rewrite map_to_list_empty. Qed.

Lemma truthy_false (g : gmap Z LatentKeyframeImport) : Group.truthy g = false → g = ∅.
Proof.
  unfold Group.truthy. intros H. apply negb_false_iff, Nat.eqb_eq in H.
  by apply map_size_empty_inv.
Qed.

Lemma truthy_true (g : gmap Z LatentKeyframeImport) : Group.truthy g = true ↔ g ≠ ∅.
Proof.
  unfold Group.truthy. rewrite negb_true_iff, Nat.eqb_neq.
  apply map_size_non_empty_iff.
Qed.

(** ** The heap *)

Lemma bind_run {A B : Type} (m : M A) (f : A → M B) (h : heap) :
  (m ≫= f) h =
  match m h with
  | (Ok a, h') => f a h'
  | (Raise e, h') => (Raise e, h')
  end.
Proof. reflexivity. Qed.

Lemma deref_lookup (h : heap) (l : loc) (g : gmap Z LatentKeyframeImport) :
  h !! l = Some g → deref h l = g.
Proof. unfold deref. by intros ->. Qed.

Lemma deref_truthy (h : heap) (l : loc) :
  Group.truthy (deref h l) = true → h !! l = Some (deref h l).
Proof.
  unfold deref. destruct (h !! l) as [g|]; [done|].
  cbn. intros H. apply truthy_true in H. done.
Qed.

Lemma fresh_not_in (h : heap) : h !! fresh (dom h) = None.
Proof. apply not_elem_of_dom, is_fresh. Qed.

Lemma group_add_all_run (l : loc) (ks : list LatentKeyframeImport) (h : heap)
    (g : gmap Z LatentKeyframeImport) :
  h !! l = Some g →
  group_add_all l ks h = (Ok tt, <[l := Group.add_all ks g]> h).
Proof.
  revert h g. induction ks as [|k ks IH]; intros h g Hl.
  - cbn. by rewrite insert_id.
  - unfold group_add_all. cbn [for_each_M]. rewrite bind_run.
    unfold group_add at 1. rewrite (deref_lookup _ _ _ Hl).
    fold (group_add_all l ks).
    rewrite (IH _ (Group.add k g)) by apply lookup_insert_eq.
    by rewrite insert_insert_eq.
Qed.

(** The first lines of an entry point: the reference [p] it goes on with
    denotes the previous group, and what the heap held is still there. *)
Lemma prev_or_new_run (prev : option loc) (h : heap) :
  ∃ p h1, prev_or_new prev h = (Ok p, h1) ∧
          h1 !! p = Some (previous_group h prev) ∧
          (∀ l, l ∈ dom h → h1 !! l = h !! l) ∧
          dom h ⊆ dom h1.
Proof.
  assert (Hnew : ∃ p h1, new_group h = (Ok p, h1) ∧ h1 !! p = Some ∅ ∧
                 (∀ l, l ∈ dom h → h1 !! l = h !! l) ∧ dom h ⊆ dom h1).
  { eexists _, _. split; [reflexivity|]. split; [apply lookup_insert_eq|]. split.
    - intros l Hl. apply lookup_insert_ne. intros <-. by apply is_fresh in Hl.
    - rewrite dom_insert_L. set_solver. }
  destruct prev as [l|]; cbn [prev_or_new previous_group]; [|done].
  destruct (Group.truthy (deref h l)) eqn:Ht.
  - exists l, h. split; [done|]. split; [by apply deref_truthy|]. done.
  - apply truthy_false in Ht. by rewrite Ht.
Qed.

(** The last lines of the three merging entry points. *)
Lemma fold_previous_run (p c : loc) (h : heap) (previous g : gmap Z LatentKeyframeImport) :
  h !! p = Some previous → h !! c = Some g →
  (previous ← group_keyframes p; group_add_all c previous;; ret c) h
  = (Ok c, <[c := Group.add_all (Group.keyframes previous) g]> h).
Proof.
  intros Hp Hc. rewrite bind_run. unfold group_keyframes.
  rewrite (deref_lookup _ _ _ Hp), bind_run.
  by rewrite (group_add_all_run _ _ _ _ Hc).
Qed.

(** The loop of the curve entry point, from position [length before] on:
    it adds one keyframe per weight left. *)
Lemma curve_loop_run (c : loc) (first : Z) (before rest : list float) (h : heap)
    (g : gmap Z LatentKeyframeImport) :
  h !! c = Some g →
  for_each_M
    (fun i =>
       weight ← lift (np.item (before ++ rest) i);
       group_add c (Keyframe (first + Z.of_nat i) weight))
    (seq (length before) (length rest)) h
  = (Ok tt,
     <[c := Group.add_all
              (imap (fun i weight => Keyframe (first + Z.of_nat (length before + i)) weight) rest)
              g]> h).
Proof.
  revert before h g. induction rest as [|w rest IH]; intros before h g Hc.
  - cbn. by rewrite insert_id.
  - cbn [length seq for_each_M]. rewrite bind_run, bind_run.
    unfold lift at 1, np.item at 1.
    rewrite lookup_app_r, Nat.sub_diag by lia. cbn [lookup list_lookup].
    unfold group_add at 1. rewrite (deref_lookup _ _ _ Hc).
    replace (before ++ w :: rest) with ((before ++ [w]) ++ rest) by by rewrite <- app_assoc.
    replace (S (length before)) with (length (before ++ [w])) by (rewrite length_app; cbn; lia).
    rewrite (IH (before ++ [w]) _ (Group.add (Keyframe (first + Z.of_nat (length before)) w) g))
      by apply lookup_insert_eq.
    rewrite insert_insert_eq. f_equal. f_equal.
    cbn [imap]. rewrite add_all_cons, Nat.add_0_r. f_equal.
    apply imap_ext. intros i x _. cbn. rewrite length_app. cbn. do 2 f_equal. lia.
Qed.

(** What every merging entry point starts with: the previous group at
    [p], a new empty group at [c], and the caller's heap untouched. *)
Lemma open_run {A : Type} (prev : option loc) (body : loc → loc → M A) (h : heap) :
  ∃ p c h2,
    (p ← prev_or_new prev; c ← new_group; body p c) h = body p c h2 ∧
    h2 !! p = Some (previous_group h prev) ∧
    h2 !! c = Some ∅ ∧
    p ≠ c ∧
    (c ∉ dom h) ∧
    (∀ l, l ∈ dom h → h2 !! l = h !! l ∧ l ≠ c).
Proof.
  destruct (prev_or_new_run prev h) as (p & h1 & Hrun & Hp & Hkeep & Hdom).
  exists p, (fresh (dom h1)), (<[fresh (dom h1) := ∅]> h1).
  assert (Hpc : p ≠ fresh (dom h1)).
  { intros Heq. pose proof (fresh_not_in h1) as Hf. rewrite <- Heq in Hf. congruence. }
  assert (Hc : fresh (dom h1) ∉ dom h).
  { intros Hin. apply (is_fresh (dom h1)). set_solver. }
  split; [by rewrite bind_run, Hrun, bind_run|].
  split; [by rewrite lookup_insert_ne|].
  split; [apply lookup_insert_eq|].
  do 2 (split; [done|]).
  intros l Hl. assert (l ≠ fresh (dom h1)) by (intros ->; done).
  split; [|done]. rewrite lookup_insert_ne by done. by apply Hkeep.
Qed.

(** The rest of a merging entry point once the new group holds the
    generated keyframes. *)
Lemma merge_tail_run (p c : loc) (h2 : heap) (ks : list LatentKeyframeImport)
    (previous : gmap Z LatentKeyframeImport) (generate_into : M unit) :
  h2 !! p = Some previous → h2 !! c = Some ∅ → p ≠ c →
  generate_into h2 = (Ok tt, <[c := Group.add_all ks ∅]> h2) →
  (generate_into;; previous ← group_keyframes p; group_add_all c previous;; ret c) h2
  = (Ok c, <[c := merge ks previous]> h2).
Proof.
  intros Hp Hc Hpc Hgen. rewrite bind_run, Hgen.
  rewrite (fold_previous_run p c _ previous (Group.add_all ks ∅)).
  - by rewrite insert_insert_eq.
  - by rewrite lookup_insert_ne.
  - apply lookup_insert_eq.
Qed.

(** ** Slices and ranges *)

Lemma py_slice_from {A : Type} (k : Z) (a : list A) :
  0 <= k → py_slice (Some k) None a = skipn (Z.to_nat k) a.
Proof.
  intros Hk. unfold py_slice, clamp_index.
  destruct (k <? 0) eqn:Hneg; [lia|].
  destruct (Z.le_gt_cases k (Z.of_nat (length a))) as [Hle|Hgt].
  - rewrite Z.min_l by done.
    apply firstn_all2. rewrite length_skipn. lia.
  - rewrite Z.min_r by lia. rewrite Nat2Z.id.
    rewrite (skipn_all2 (n := Z.to_nat k)) by lia.
    by rewrite skipn_all, firstn_nil.
Qed.

Lemma py_slice_to_neg {A : Type} (d : Z) (a : list A) :
  0 < d → py_slice None (Some (- d)) a = firstn (length a - Z.to_nat d) a.
Proof.
  intros Hd. unfold py_slice, clamp_index.
  destruct (- d <? 0) eqn:Hneg; [|lia].
  cbn [skipn Z.to_nat]. f_equal. lia.
Qed.

Lemma py_range_length (lo hi : Z) : length (py_range lo hi) = Z.to_nat (hi - lo).
Proof. unfold py_range. by rewrite length_map, length_seq. Qed.

Lemma py_range_lookup (lo hi : Z) (i : nat) :
  (i < Z.to_nat (hi - lo))%nat → py_range lo hi !! i = Some (lo + Z.of_nat i).
Proof.
  intros Hi. unfold py_range. rewrite list_lookup_fmap.
  by rewrite lookup_seq_lt.
Qed.

(** ** The index-string entry point, run *)

Section ParserRuns.

Context (py_float : string → option float).

Import LatentKeyframeGroupNodeImport.

Lemma load_keyframes_outcome (index_strengths : string) (prev : option loc)
    (latent_image_opt : option Z) (h : heap) :
  let latent_count := match latent_image_opt with Some n => n | None => -1 end in
  keeps h (load_keyframes py_float index_strengths prev latent_image_opt h) ∧
  match convert_to_latent_keyframes py_float index_strengths latent_count with
  | Ok ks => returns_merge h prev ks
               (load_keyframes py_float index_strengths prev latent_image_opt h)
  | Raise e => fst (load_keyframes py_float index_strengths prev latent_image_opt h) = Raise e
  end.
Proof.
  intros latent_count. unfold load_keyframes. fold latent_count.
  match goal with |- context [prev_or_new prev ≫= ?f] =>
    destruct (open_run prev (fun p c =>
      latent_keyframes ← lift (convert_to_latent_keyframes py_float index_strengths latent_count);
      group_add_all c latent_keyframes;;
      previous ← group_keyframes p; group_add_all c previous;; ret c) h)
      as (p & c & h2 & Hrun & Hp & Hc & Hpc & Hfresh & Hkeep)
  end.
  rewrite Hrun. clear Hrun. rewrite bind_run. unfold lift at 1 2 3.
  destruct (convert_to_latent_keyframes py_float index_strengths latent_count) as [ks|e].
  - rewrite (merge_tail_run p c h2 ks (previous_group h prev)); try done.
    + split.
      * intros l Hl. cbn. destruct (Hkeep l Hl) as [Hh Hne].
        by rewrite lookup_insert_ne.
      * exists c. cbn. split; [done|]. split; [done|]. apply lookup_insert_eq.
    + by apply group_add_all_run.
  - split; [|done]. intros l Hl. cbn. by apply Hkeep.
Qed.

End ParserRuns.

(** ** The batched entry point, run *)

Lemma batched_loop_run (c : loc) (pairs : list (Z * float)) (h : heap) :
  for_each_M (fun '(idx, strength) => group_add c (Keyframe idx strength)) pairs h
  = group_add_all c (map (fun '(idx, strength) => Keyframe idx strength) pairs) h.
Proof.
  revert h. induction pairs as [|[idx x] pairs IH]; intros h; [done|].
  unfold group_add_all. cbn [map for_each_M]. rewrite !bind_run.
  destruct (group_add c (Keyframe idx x) h) as [[[]|e] h'] eqn:Hadd; [|done].
  apply IH.
Qed.

Lemma batched_outcome (strengths : strengths_value) (prev : option loc) (h : heap) :
  keeps h (LatentKeyframeBatchedGroupNodeImport.load_keyframe strengths prev h) ∧
  match strengths with
  | FloatValue _ | IntValue _ =>
      returns_merge h prev [] (LatentKeyframeBatchedGroupNodeImport.load_keyframe strengths prev h)
  | IterableValue items =>
      returns_merge h prev (batched_keyframes items)
        (LatentKeyframeBatchedGroupNodeImport.load_keyframe strengths prev h)
  | OtherValue type_name =>
      fst (LatentKeyframeBatchedGroupNodeImport.load_keyframe strengths prev h)
      = Raise (ValueError (ExpectedIterable type_name))
  end.
Proof.
  unfold LatentKeyframeBatchedGroupNodeImport.load_keyframe.
  destruct (open_run prev (fun p c =>
      match strengths with
      | FloatValue _ | IntValue _ => ret ()
      | IterableValue items =>
          for_each_M (fun '(idx, strength) => group_add c (Keyframe idx strength))
            (LatentKeyframeBatchedGroupNodeImport.enumerate items)
      | OtherValue type_name => lift (Raise (ValueError (ExpectedIterable type_name)))
      end;;
      previous ← group_keyframes p; group_add_all c previous;; ret c) h)
      as (p & c & h2 & Hrun & Hp & Hc & Hpc & Hfresh & Hkeep).
  rewrite Hrun. clear Hrun.
  assert (Hok : ∀ ks gen, gen h2 = (Ok (), <[c := Group.add_all ks ∅]> h2) →
    let out := (gen;; previous ← group_keyframes p; group_add_all c previous;; ret c) h2 in
    keeps h out ∧ returns_merge h prev ks out).
  { intros ks gen Hgen out. subst out.
    rewrite (merge_tail_run p c h2 ks (previous_group h prev)); try done.
    split.
    - intros l Hl. cbn. destruct (Hkeep l Hl) as [Hh Hne]. by rewrite lookup_insert_ne.
    - exists c. cbn. split; [done|]. split; [done|]. apply lookup_insert_eq. }
  destruct strengths as [x|n|items|type_name].
  - apply (Hok []). cbn. by rewrite insert_id.
  - apply (Hok []). cbn. by rewrite insert_id.
  - apply (Hok (batched_keyframes items)).
    rewrite batched_loop_run. by apply group_add_all_run.
  - rewrite bind_run. cbn. split; [|done]. intros l Hl. cbn. by apply Hkeep.
Qed.

(** ** numpy and the curve *)

Lemma set_last_length (y : list float) (v : float) : length (np.set_last y v) = length y.
Proof.
  induction y as [|x [|x' y] IH]; [done..|].
  change (np.set_last (x :: x' :: y) v) with (x :: np.set_last (x' :: y) v).
  cbn [length] in *. by rewrite IH.
Qed.

Lemma linspace_ok (start stop : float) (num : Z) :
  0 <= num →
  ∃ y, np.linspace start stop num = Ok y ∧ length y = Z.to_nat num.
Proof.
  intros Hnum. unfold np.linspace.
  destruct (num <? 0) eqn:Hneg; [lia|].
  eexists. split; [reflexivity|].
  assert (Hlen : ∀ f g : float → float,
             length (map g (map f (map np.of_int (py_range 0 num)))) = Z.to_nat num).
  { intros f g. rewrite !length_map, py_range_length. f_equal. lia. }
  destruct (1 <? num); [rewrite set_last_length|];
    destruct (0 <? num - 1); try destruct (_ =? _)%float; apply Hlen.
Qed.

Section CurveFacts.

Context (np_cos : float → float).

Import LatentKeyframeInterpolationNodeImport.

Lemma shape_weights_ok (interpolation : string) (strength_from strength_to : float)
    (index : list float) :
  interpolation ∈ shapes →
  ∃ weights, shape_weights np_cos interpolation strength_from strength_to index = Ok weights ∧
             length weights = length index.
Proof.
  intros Hshape. unfold shapes in Hshape.
  assert (Hlin : ∃ weights,
            np.linspace strength_from strength_to (Z.of_nat (length index)) = Ok weights ∧
            length weights = length index).
  { destruct (linspace_ok strength_from strength_to (Z.of_nat (length index)))
      as (y & Hy & Hlen); [lia|].
    exists y. split; [done|]. by rewrite Hlen, Nat2Z.id. }
  repeat (apply elem_of_cons in Hshape as [->|Hshape]);
    [by apply Hlin | eexists; split; [reflexivity|apply length_map].. |].
  by apply elem_of_nil in Hshape.
Qed.

(** The frame numbers count up from [batch_index_from], one per weight. *)
Lemma generate_frames (batch_index_from : Z) (strength_from : float)
    (batch_index_to_excl : Z) (strength_to : float) (interpolation : string)
    (revert : bool) (weights : list float) (frame_numbers : list Z) :
  generate np_cos batch_index_from strength_from batch_index_to_excl strength_to
    interpolation revert = Ok (weights, frame_numbers) →
  frame_numbers = py_range batch_index_from (batch_index_from + Z.of_nat (length weights)).
Proof.
  unfold generate. intros H.
  destruct (if revert then _ else _) as [index|e]; [|done]. cbn in H.
  destruct (shape_weights _ _ _ _ _) as [ws|e]; [|done]. cbn in H.
  by inversion H.
Qed.

(** With end points in order and a known shape, the curve is generated:
    [steps] weights, or twice [steps // 2 + 1] with the reversal. *)
Lemma generate_ok (batch_index_from : Z) (strength_from : float)
    (batch_index_to_excl : Z) (strength_to : float) (interpolation : string)
    (revert : bool) :
  batch_index_from <= batch_index_to_excl →
  interpolation ∈ shapes →
  ∃ weights frame_numbers,
    generate np_cos batch_index_from strength_from batch_index_to_excl strength_to
      interpolation revert = Ok (weights, frame_numbers) ∧
    length weights =
      (if revert
       then 2 * Z.to_nat ((batch_index_to_excl - batch_index_from) / 2 + 1)
       else Z.to_nat (batch_index_to_excl - batch_index_from))%nat.
Proof.
  intros Hle Hshape. unfold generate.
  set (steps := batch_index_to_excl - batch_index_from).
  assert (0 <= steps) by lia.
  assert (0 <= steps / 2) by (apply Z.div_pos; lia).
  destruct revert.
  - destruct (linspace_ok 0 1 (steps / 2 + 1)) as (index & -> & Hlen); [lia|].
    destruct (shape_weights_ok interpolation strength_from strength_to index Hshape)
      as (ws & Hws & Hlenws).
    cbn. rewrite Hws. cbn. eexists _, _. split; [reflexivity|].
    rewrite length_app, length_rev. lia.
  - destruct (linspace_ok 0 1 steps) as (index & -> & Hlen); [lia|].
    destruct (shape_weights_ok interpolation strength_from strength_to index Hshape)
      as (ws & Hws & Hlenws).
    cbn. rewrite Hws. cbn. eexists _, _. split; [reflexivity|]. lia.
Qed.

Lemma drop_negative_start_skipn {A : Type} (batch_index_from : Z) (a : list A) :
  drop_negative_start batch_index_from a =
  if batch_index_from <? 0 then skipn (Z.to_nat (- batch_index_from)) a else a.
Proof.
  unfold drop_negative_start.
  destruct (batch_index_from <? 0) eqn:Hneg; [|done].
  rewrite py_slice_from by lia. f_equal. lia.
Qed.

Lemma drop_excess_tail_firstn {A : Type} (batch_index_to_excl last : Z) (a : list A) :
  drop_excess_tail batch_index_to_excl last a =
  if last <? batch_index_to_excl
  then firstn (length a - Z.to_nat (batch_index_to_excl - last)) a
  else a.
Proof.
  unfold drop_excess_tail.
  destruct (last <? batch_index_to_excl) eqn:Hgt; [|done].
  apply py_slice_to_neg. lia.
Qed.

(** The droppers cut both arrays alike. *)
Lemma droppers_length {A B : Type} (batch_index_from batch_index_to_excl last : Z)
    (a : list A) (b : list B) :
  length a = length b →
  length (drop_excess_tail batch_index_to_excl last (drop_negative_start batch_index_from a))
  = length (drop_excess_tail batch_index_to_excl last (drop_negative_start batch_index_from b)).
Proof.
  intros Hlen. rewrite !drop_excess_tail_firstn, !drop_negative_start_skipn.
  destruct (last <? batch_index_to_excl), (batch_index_from <? 0);
    rewrite ?length_firstn, ?length_skipn; lia.
Qed.

End CurveFacts.

(** ** The curve entry point, run *)

Section CurveRuns.

Context (np_cos : float → float).

Import LatentKeyframeInterpolationNodeImport.

(** Every outcome of the curve entry point: the checks, then the
    generation, then the two droppers; with nothing left the first frame
    number cannot be read, otherwise the keyframes left are merged. *)
Lemma curve_outcome (batch_index_from : Z) (strength_from : float)
    (batch_index_to_excl : Z) (strength_to : float) (interpolation : string)
    (revert : bool) (last : Z) (prev : option loc) (h : heap) :
  let out := load_keyframe np_cos batch_index_from strength_from batch_index_to_excl
               strength_to interpolation revert last prev h in
  keeps h out ∧
  match check_endpoints batch_index_from batch_index_to_excl with
  | Raise e => out = (Raise e, h)
  | Ok _ =>
      match generate np_cos batch_index_from strength_from batch_index_to_excl
              strength_to interpolation revert with
      | Raise e => fst out = Raise e
      | Ok (weights, frame_numbers) =>
          let weights' :=
            drop_excess_tail batch_index_to_excl last
              (drop_negative_start batch_index_from weights) in
          let frame_numbers' :=
            drop_excess_tail batch_index_to_excl last
              (drop_negative_start batch_index_from frame_numbers) in
          match frame_numbers' with
          | [] => fst out = Raise (IndexError (ArrayIndexOutOfBounds 0 0))
          | _ :: _ => returns_merge h prev (curve_keyframes weights' frame_numbers') out
          end
      end
  end.
Proof.
  intros out. pose proof (eq_refl out) as Hout. unfold out at 2 in Hout. clearbody out.
  unfold load_keyframe in Hout. rewrite bind_run in Hout. unfold lift at 1 in Hout.
  destruct (check_endpoints batch_index_from batch_index_to_excl) as [[]|e];
    [|by subst out].
  match type of Hout with
  | context [ (prev_or_new prev ≫= (fun x => new_group ≫= (fun y => @?body x y))) h ] =>
      destruct (open_run prev body h) as (p & c & h2 & Hrun & Hp & Hc & Hpc & Hfresh & Hkeep)
  end.
  cbv beta in Hrun. rewrite Hrun in Hout. clear Hrun.
  rewrite bind_run in Hout. unfold lift at 1 in Hout.
  destruct (generate _ _ _ _ _ _ _) as [[weights frame_numbers]|e] eqn:Hgen.
  2:{ subst out. split; [|done]. intros l Hl. cbn. by apply Hkeep. }
  pose proof (generate_frames _ _ _ _ _ _ _ _ _ Hgen) as Hframes.
  assert (Hlen : length weights = length frame_numbers)
    by (rewrite Hframes, py_range_length; lia).
  pose proof (droppers_length batch_index_from batch_index_to_excl last _ _ Hlen) as Hlen'.
  cbv zeta.
  set (weights' := drop_excess_tail _ _ (drop_negative_start _ weights)) in *.
  set (frame_numbers' := drop_excess_tail _ _ (drop_negative_start _ frame_numbers)) in *.
  rewrite bind_run in Hout. unfold lift at 1, np.item at 1 in Hout.
  destruct frame_numbers' as [|first rest] eqn:Hfn.
  - cbn in Hout. subst out. split; [|done]. intros l Hl. cbn. by apply Hkeep.
  - cbn [lookup list_lookup] in Hout.
    rewrite (merge_tail_run p c h2 (curve_keyframes weights' (first :: rest))
               (previous_group h prev)) in Hout; try done.
    + subst out. split.
      * intros l Hl. cbn. destruct (Hkeep l Hl) as [Hh Hne]. by rewrite lookup_insert_ne.
      * exists c. cbn. split; [done|]. split; [done|]. apply lookup_insert_eq.
    + rewrite <- Hlen'. exact (curve_loop_run c first [] weights' h2 ∅ Hc).
Qed.

End CurveRuns.

(** ** The end points of the curve *)

Section EndPoints.

Context (np_cos : float → float).

Import LatentKeyframeInterpolationNodeImport.

Lemma linspace_raises (start stop : float) (num : Z) (e : exn) :
  np.linspace start stop num = Raise e → e = ValueError (NegativeSamples num).
Proof. unfold np.linspace. destruct (num <? 0); [by intros [= <-]|done]. Qed.

(** What the generation can raise: nothing about the end points. *)
Lemma generate_raises (batch_index_from : Z) (strength_from : float)
    (batch_index_to_excl : Z) (strength_to : float) (interpolation : string)
    (revert : bool) (e : exn) :
  generate np_cos batch_index_from strength_from batch_index_to_excl strength_to
    interpolation revert = Raise e →
  (∃ num, e = ValueError (NegativeSamples num)) ∨ e = UnboundLocalError "weights".
Proof.
  unfold generate. intros H.
  destruct (if revert then _ else _) as [index|e'] eqn:Hindex.
  - cbn in H. destruct (shape_weights _ _ _ _ _) as [ws|e'] eqn:Hws; [done|].
    cbn in H. injection H as <-. unfold shape_weights in Hws.
    repeat (destruct (String.eqb interpolation _); [first [done | left; eexists; by eapply linspace_raises]|]).
    injection Hws as <-. by right.
  - cbn in H. injection H as <-. left.
    destruct revert; eexists; by eapply linspace_raises.
Qed.

Lemma check_endpoints_ok (batch_index_from batch_index_to_excl : Z) :
  batch_index_from <= batch_index_to_excl →
  (0 <= batch_index_from ∧ 0 <= batch_index_to_excl) ∨
  (batch_index_from < 0 ∧ batch_index_to_excl < 0) →
  check_endpoints batch_index_from batch_index_to_excl = Ok ().
Proof.
  intros Hle Hsign. unfold check_endpoints.
  destruct (batch_index_to_excl <? batch_index_from) eqn:H1; [lia|].
  destruct (batch_index_from <? 0) eqn:H2, (0 <=? batch_index_to_excl) eqn:H3; cbn; try done.
  lia.
Qed.

(** C7: the curve entry point fails with a [ValueError] (the spec's domain
    error) when [batch_index_from > batch_index_to_excl], and when one end
    point is negative and the other is not; when the end points are in
    order and both non-negative or both negative, the two checks pass and
    the entry point raises neither of their errors. *)
Theorem C7_endpoint_checks (batch_index_from : Z) (strength_from : float)
    (batch_index_to_excl : Z) (strength_to : float) (interpolation : string)
    (revert : bool) (last : Z) (prev : option loc) (h : heap) :
  let out := load_keyframe np_cos batch_index_from strength_from batch_index_to_excl
               strength_to interpolation revert last prev h in
  (batch_index_to_excl < batch_index_from →
     out = (Raise (ValueError FromGreaterThanTo), h)) ∧
  ((batch_index_from < 0 ∧ 0 <= batch_index_to_excl) ∨
   (0 <= batch_index_from ∧ batch_index_to_excl < 0) →
     ∃ msg, out = (Raise (ValueError msg), h) ∧ (msg = FromGreaterThanTo ∨ msg = MixedSign)) ∧
  (batch_index_from <= batch_index_to_excl →
   (0 <= batch_index_from ∧ 0 <= batch_index_to_excl) ∨
   (batch_index_from < 0 ∧ batch_index_to_excl < 0) →
     check_endpoints batch_index_from batch_index_to_excl = Ok () ∧
     fst out ≠ Raise (ValueError FromGreaterThanTo) ∧
     fst out ≠ Raise (ValueError MixedSign)).
Proof.
  intros out.
  destruct (curve_outcome np_cos batch_index_from strength_from batch_index_to_excl
              strength_to interpolation revert last prev h) as [_ Hout].
  fold out in Hout. split; [|split].
  - intros Hgt. unfold check_endpoints in Hout.
    destruct (batch_index_to_excl <? batch_index_from) eqn:H1; [done|lia].
  - intros Hsign. unfold check_endpoints in Hout.
    destruct (batch_index_to_excl <? batch_index_from) eqn:H1; [eauto|].
    destruct (batch_index_from <? 0) eqn:H2, (0 <=? batch_index_to_excl) eqn:H3;
      cbn in Hout; [eauto|lia..].
  - intros Hle Hsign. rewrite (check_endpoints_ok _ _ Hle Hsign) in Hout.
    split; [by apply check_endpoints_ok|].
    destruct (generate _ _ _ _ _ _ _) as [[weights frame_numbers]|e] eqn:Hgen.
    + cbv zeta in Hout. destruct (drop_excess_tail _ _ (drop_negative_start _ frame_numbers)).
      * rewrite Hout. by split.
      * destruct Hout as (r & -> & _). by split.
    + rewrite Hout. apply generate_raises in Hgen as [[num ->]| ->]; by split.
Qed.

End EndPoints.

(** C7 at [5, 2) (out of order), [-1, 2) (mixed signs) and [2, 5). *)
Lemma C7_endpoint_checks_witness :
  let load := LatentKeyframeInterpolationNodeImport.load_keyframe (fun x => x) in
  load 5 0%float 2 1%float "linear" false 2 None ∅
    = (Raise (ValueError FromGreaterThanTo), ∅) ∧
  (∃ msg, load (-1) 0%float 2 1%float "linear" false 2 None ∅ = (Raise (ValueError msg), ∅) ∧
          (msg = FromGreaterThanTo ∨ msg = MixedSign)) ∧
  (LatentKeyframeInterpolationNodeImport.check_endpoints 2 5 = Ok () ∧
   fst (load 2 0%float 5 1%float "linear" false 5 None ∅) ≠ Raise (ValueError FromGreaterThanTo) ∧
   fst (load 2 0%float 5 1%float "linear" false 5 None ∅) ≠ Raise (ValueError MixedSign)).
Proof.
  intros load. split; [|split].
  - apply (C7_endpoint_checks (fun x => x) 5 0%float 2 1%float "linear" false 2 None ∅). lia.
  - apply (C7_endpoint_checks (fun x => x) (-1) 0%float 2 1%float "linear" false 2 None ∅).
    left. lia.
  - apply (C7_endpoint_checks (fun x => x) 2 0%float 5 1%float "linear" false 5 None ∅); lia.
Defined.

(** ** Curves of which nothing is left *)

Section EmptyCurves.

Context (np_cos : float → float).

Import LatentKeyframeInterpolationNodeImport.

Lemma droppers_nil {A : Type} (batch_index_from batch_index_to_excl last : Z) (a : list A) :
  Z.of_nat (length a) <= (if batch_index_from <? 0 then - batch_index_from else 0)
                         + (if last <? batch_index_to_excl then batch_index_to_excl - last else 0) →
  drop_excess_tail batch_index_to_excl last (drop_negative_start batch_index_from a) = [].
Proof.
  intros Hlen. apply length_zero_iff_nil.
  rewrite drop_excess_tail_firstn, drop_negative_start_skipn.
  destruct (last <? batch_index_to_excl), (batch_index_from <? 0);
    rewrite ?length_firstn, ?length_skipn; lia.
Qed.

(** The entry point when the droppers leave no frame number. *)
Lemma nothing_left_raises (batch_index_from : Z) (strength_from : float)
    (batch_index_to_excl : Z) (strength_to : float) (interpolation : string)
    (revert : bool) (last : Z) (prev : option loc) (h : heap)
    (weights : list float) (frame_numbers : list Z) :
  check_endpoints batch_index_from batch_index_to_excl = Ok () →
  generate np_cos batch_index_from strength_from batch_index_to_excl strength_to
    interpolation revert = Ok (weights, frame_numbers) →
  drop_excess_tail batch_index_to_excl last
    (drop_negative_start batch_index_from frame_numbers) = [] →
  fst (load_keyframe np_cos batch_index_from strength_from batch_index_to_excl
         strength_to interpolation revert last prev h)
  = Raise (IndexError (ArrayIndexOutOfBounds 0 0)).
Proof.
  intros Hcheck Hgen Hnil.
  destruct (curve_outcome np_cos batch_index_from strength_from batch_index_to_excl
              strength_to interpolation revert last prev h) as [_ Hout].
  rewrite Hcheck, Hgen in Hout. cbv zeta in Hout. by rewrite Hnil in Hout.
Qed.

(** C2: with [batch_index_from = batch_index_to_excl] and no reversal the
    end points pass the checks and the generated curve is empty, but the
    entry point does not return: reading the first frame number of the
    empty array raises numpy's [IndexError]. *)
Theorem C2_zero_length_window_raises (batch_index : Z) (strength_from strength_to : float)
    (interpolation : string) (last : Z) (prev : option loc) (h : heap) :
  interpolation ∈ shapes →
  check_endpoints batch_index batch_index = Ok () ∧
  generate np_cos batch_index strength_from batch_index strength_to interpolation false
    = Ok ([], []) ∧
  fst (load_keyframe np_cos batch_index strength_from batch_index strength_to
         interpolation false last prev h)
  = Raise (IndexError (ArrayIndexOutOfBounds 0 0)).
Proof.
  intros Hshape.
  assert (Hcheck : check_endpoints batch_index batch_index = Ok ()).
  { unfold check_endpoints. rewrite Z.ltb_irrefl.
    destruct (batch_index <? 0) eqn:H1, (0 <=? batch_index) eqn:H2; cbn; try done. lia. }
  destruct (generate_ok np_cos batch_index strength_from batch_index strength_to
              interpolation false) as (weights & frame_numbers & Hgen & Hlen); [lia|done|].
  rewrite Z.sub_diag in Hlen. apply length_zero_iff_nil in Hlen. subst weights.
  pose proof (generate_frames _ _ _ _ _ _ _ _ _ Hgen) as ->.
  replace (py_range batch_index (batch_index + Z.of_nat (length []))) with (@nil Z) in *
    by (unfold py_range; cbn [length]; by rewrite Z.add_0_r, Z.sub_diag).
  split; [done|]. split; [done|].
  eapply nothing_left_raises; [done..|].
  apply droppers_nil. cbn [length].
  destruct (batch_index <? 0) eqn:H1, (last <? batch_index) eqn:H2; lia.
Qed.

(** C10: whenever the two droppers leave no frame number, the curve entry
    point returns no group and raises numpy's [IndexError] where it reads
    the first frame number left; so it does for two negative end points
    without the reversal, and when [batch_index_to_excl] exceeds
    [last_key_frame_position] by at least the number of weights.  When a
    frame number is left, a group is returned. *)
Theorem C10_nothing_left_raises (batch_index_from : Z) (strength_from : float)
    (batch_index_to_excl : Z) (strength_to : float) (interpolation : string)
    (revert : bool) (last : Z) (prev : option loc) (h : heap) :
  let out := load_keyframe np_cos batch_index_from strength_from batch_index_to_excl
               strength_to interpolation revert last prev h in
  let raises := fst out = Raise (IndexError (ArrayIndexOutOfBounds 0 0)) in
  (∀ weights frame_numbers,
     check_endpoints batch_index_from batch_index_to_excl = Ok () →
     generate np_cos batch_index_from strength_from batch_index_to_excl strength_to
       interpolation revert = Ok (weights, frame_numbers) →
     (drop_excess_tail batch_index_to_excl last
        (drop_negative_start batch_index_from frame_numbers) = [] → raises) ∧
     (drop_excess_tail batch_index_to_excl last
        (drop_negative_start batch_index_from frame_numbers) ≠ [] → ∃ r, fst out = Ok r)) ∧
  (batch_index_from <= batch_index_to_excl → batch_index_to_excl < 0 →
   interpolation ∈ shapes → revert = false → raises) ∧
  (∀ weights frame_numbers,
     check_endpoints batch_index_from batch_index_to_excl = Ok () →
     generate np_cos batch_index_from strength_from batch_index_to_excl strength_to
       interpolation revert = Ok (weights, frame_numbers) →
     Z.of_nat (length weights) <= batch_index_to_excl - last → raises).
Proof.
  intros out raises. subst raises. split; [|split].
  - intros weights frame_numbers Hcheck Hgen. split.
    + intros Hnil. by eapply nothing_left_raises.
    + intros Hleft.
      destruct (curve_outcome np_cos batch_index_from strength_from batch_index_to_excl
                  strength_to interpolation revert last prev h) as [_ Hout].
      rewrite Hcheck, Hgen in Hout. cbv zeta in Hout.
      destruct (drop_excess_tail _ _ (drop_negative_start _ frame_numbers)); [done|].
      destruct Hout as (r & Hr & _). by exists r.
  - intros Hle Hneg Hshape ->.
    destruct (generate_ok np_cos batch_index_from strength_from batch_index_to_excl
                strength_to interpolation false Hle Hshape)
      as (weights & frame_numbers & Hgen & Hlen).
    eapply nothing_left_raises; [apply check_endpoints_ok; lia|done|].
    apply droppers_nil.
    rewrite (generate_frames _ _ _ _ _ _ _ _ _ Hgen), py_range_length.
    destruct (batch_index_from <? 0) eqn:H1; [|lia].
    destruct (last <? batch_index_to_excl) eqn:H2; lia.
  - intros weights frame_numbers Hcheck Hgen Hexcess.
    eapply nothing_left_raises; [done..|].
    apply droppers_nil.
    rewrite (generate_frames _ _ _ _ _ _ _ _ _ Hgen), py_range_length.
    destruct (last <? batch_index_to_excl) eqn:H1.
    + destruct (batch_index_from <? 0) eqn:H2; lia.
    + assert (length weights = 0%nat) as -> by lia.
      destruct (batch_index_from <? 0) eqn:H2; lia.
Qed.

End EmptyCurves.

(** C2 at the defaults of the node: both end points 0, linear. *)
Lemma C2_zero_length_window_raises_witness :
  LatentKeyframeInterpolationNodeImport.check_endpoints 0 0 = Ok () ∧
  LatentKeyframeInterpolationNodeImport.generate (fun x => x) 0 1%float 0 1%float "linear" false
    = Ok ([], []) ∧
  fst (LatentKeyframeInterpolationNodeImport.load_keyframe (fun x => x)
         0 1%float 0 1%float "linear" false 0 None ∅)
  = Raise (IndexError (ArrayIndexOutOfBounds 0 0)).
Proof.
  apply (C2_zero_length_window_raises (fun x => x) 0 1%float 1%float "linear" 0 None ∅).
  unfold shapes. apply list_elem_of_In. simpl. auto.
Defined.

(** C10 at [-3, -1) (all dropped at the start), at [0, 5) with
    [last_key_frame_position = 0] (all dropped at the tail) and at [0, 5)
    with [last_key_frame_position = 5] (nothing dropped). *)
Lemma C10_nothing_left_raises_witness :
  let load := LatentKeyframeInterpolationNodeImport.load_keyframe (fun x => x) in
  fst (load (-3) 0%float (-1) 1%float "linear" false 0 None ∅)
    = Raise (IndexError (ArrayIndexOutOfBounds 0 0)) ∧
  fst (load 0 0%float 5 1%float "linear" false 0 None ∅)
    = Raise (IndexError (ArrayIndexOutOfBounds 0 0)) ∧
  (∃ r, fst (load 0 0%float 5 1%float "linear" false 5 None ∅) = Ok r).
Proof.
  intros load. split; [|split].
  - apply (C10_nothing_left_raises (fun x => x) (-3) 0%float (-1) 1%float "linear" false 0 None ∅);
      [lia | lia | apply list_elem_of_In; simpl; auto | reflexivity].
  - eapply (C10_nothing_left_raises (fun x => x) 0 0%float 5 1%float "linear" false 0 None ∅);
      [reflexivity | vm_compute; reflexivity | simpl; lia].
  - eapply (C10_nothing_left_raises (fun x => x) 0 0%float 5 1%float "linear" false 5 None ∅);
      [reflexivity | vm_compute; reflexivity | vm_compute; discriminate].
Defined.

(** ** The negative-start dropper *)

(** The input of the spec's example, [batch_index_from = -2] and
    [batch_index_to_excl = 3] with [last_key_frame_position = 3], returns
    no group: the check on the signs of the end points rejects it. *)
Lemma C9_mixed_sign_example_rejected :
  let out := LatentKeyframeInterpolationNodeImport.load_keyframe (fun x => x)
               (-2) 0%float 3 1%float "linear" false 3 None ∅ in
  fst out = Raise (ValueError MixedSign) ∧ ¬ (∃ r, fst out = Ok r).
Proof. split; [reflexivity|]. intros [r Hr]. vm_compute in Hr. discriminate. Qed.

Section NegativeStart.

Context (np_cos : float → float).

Import LatentKeyframeInterpolationNodeImport.

(** C9, amended: for a negative [batch_index_from], an input whose
    [batch_index_to_excl] is not negative is rejected with the mixed-sign
    [ValueError] and nothing is dropped; with both end points negative and
    in order, the dropper cuts the first [abs(batch_index_from)] weights
    and frame numbers off the generated curve (all of them when there are
    fewer), and the entry point goes on with what is left. *)
Theorem C9_negative_start_dropper (batch_index_from : Z) (strength_from : float)
    (batch_index_to_excl : Z) (strength_to : float) (interpolation : string)
    (revert : bool) (last : Z) (prev : option loc) (h : heap) :
  batch_index_from < 0 →
  let out := load_keyframe np_cos batch_index_from strength_from batch_index_to_excl
               strength_to interpolation revert last prev h in
  let drop_count := Z.abs_nat batch_index_from in
  (0 <= batch_index_to_excl → out = (Raise (ValueError MixedSign), h)) ∧
  (∀ weights frame_numbers,
     batch_index_from <= batch_index_to_excl → batch_index_to_excl < 0 →
     generate np_cos batch_index_from strength_from batch_index_to_excl strength_to
       interpolation revert = Ok (weights, frame_numbers) →
     drop_negative_start batch_index_from weights = skipn drop_count weights ∧
     drop_negative_start batch_index_from frame_numbers = skipn drop_count frame_numbers ∧
     length (skipn drop_count weights) = (length weights - drop_count)%nat ∧
     match drop_excess_tail batch_index_to_excl last (skipn drop_count frame_numbers) with
     | [] => fst out = Raise (IndexError (ArrayIndexOutOfBounds 0 0))
     | _ :: _ =>
         returns_merge h prev
           (curve_keyframes
              (drop_excess_tail batch_index_to_excl last (skipn drop_count weights))
              (drop_excess_tail batch_index_to_excl last (skipn drop_count frame_numbers)))
           out
     end).
Proof.
  intros Hneg out drop_count.
  destruct (curve_outcome np_cos batch_index_from strength_from batch_index_to_excl
              strength_to interpolation revert last prev h) as [_ Hout].
  fold out in Hout.
  assert (Hdrop : ∀ (A : Type) (a : list A), drop_negative_start batch_index_from a = skipn drop_count a).
  { intros A a. rewrite drop_negative_start_skipn.
    destruct (batch_index_from <? 0) eqn:H1; [|lia]. subst drop_count. f_equal. lia. }
  split.
  - intros Hto. unfold check_endpoints in Hout.
    destruct (batch_index_to_excl <? batch_index_from) eqn:H1; [lia|].
    destruct (batch_index_from <? 0) eqn:H2, (0 <=? batch_index_to_excl) eqn:H3;
      cbn in Hout; [done|lia..].
  - intros weights frame_numbers Hle Hto Hgen.
    rewrite check_endpoints_ok, Hgen in Hout by lia. cbv zeta in Hout.
    rewrite !Hdrop in Hout.
    split; [apply Hdrop|]. split; [apply Hdrop|]. split; [apply length_skipn|]. done.
Qed.

End NegativeStart.

(** C9 at [-2, 3) (rejected) and at [-3, -1) with the reversal, where four
    weights are generated for the frames -3..0 and the one of frame 0 is
    left. *)
Lemma C9_negative_start_dropper_witness :
  let load := LatentKeyframeInterpolationNodeImport.load_keyframe (fun x => x) in
  load (-2) 0%float 3 1%float "linear" false 3 None ∅ = (Raise (ValueError MixedSign), ∅) ∧
  returns_merge ∅ None [Keyframe 0 0%float]
    (load (-3) 0%float (-1) 1%float "linear" true 0 None ∅).
Proof.
  intros load. split.
  - apply (C9_negative_start_dropper (fun x => x) (-2) 0%float 3 1%float "linear" false 3 None ∅);
      lia.
  - assert (Hgen : LatentKeyframeInterpolationNodeImport.generate (fun x => x)
                     (-3) 0%float (-1) 1%float "linear" true
                   = Ok ([0; 1; 1; 0]%float, [-3; -2; -1; 0])) by (vm_compute; reflexivity).
    apply (C9_negative_start_dropper (fun x => x) (-3) 0%float (-1) 1%float "linear" true 0 None ∅)
      in Hgen; [|lia..].
    exact (proj2 (proj2 (proj2 Hgen))).
Defined.

(** ** The linear curve from 0 to 1 over five frames *)

Section LinearCurve.

Context (np_cos : float → float).

Import LatentKeyframeInterpolationNodeImport.

(** C8: with shape linear, strengths from 0.0 to 1.0, frames [0, 5),
    [last_key_frame_position = 5], no reversal and no previous group, the
    weights generated are exactly 0.0, 0.25, 0.5, 0.75 and 1.0, which is
    non-decreasing, and the group returned holds them at the frames 0 to 4
    and nothing else. *)
Theorem C8_linear_curve (h : heap) :
  let out := load_keyframe np_cos 0 0%float 5 1%float "linear" false 5 None h in
  generate np_cos 0 0%float 5 1%float "linear" false
    = Ok ([0; 0.25; 0.5; 0.75; 1]%float, [0; 1; 2; 3; 4]) ∧
  non_decreasing [0; 0.25; 0.5; 0.75; 1]%float = true ∧
  ∃ r g, fst out = Ok r ∧ (r ∉ dom h) ∧ snd out !! r = Some g ∧
         map (fun i => strength <$> g !! i) [0; 1; 2; 3; 4]
           = [Some 0; Some 0.25; Some 0.5; Some 0.75; Some 1]%float ∧
         g = list_to_map [(0, Keyframe 0 0%float); (1, Keyframe 1 0.25%float);
                          (2, Keyframe 2 0.5%float); (3, Keyframe 3 0.75%float);
                          (4, Keyframe 4 1%float)].
Proof.
  intros out.
  assert (Hgen : generate np_cos 0 0%float 5 1%float "linear" false
                 = Ok ([0; 0.25; 0.5; 0.75; 1]%float, [0; 1; 2; 3; 4]))
    by (vm_compute; reflexivity).
  split; [done|]. split; [reflexivity|].
  destruct (curve_outcome np_cos 0 0%float 5 1%float "linear" false 5 None h) as [_ Hout].
  fold out in Hout. rewrite Hgen in Hout.
  change (check_endpoints 0 5) with (Ok ()) in Hout. cbv zeta in Hout.
  change (drop_excess_tail 5 5 (drop_negative_start 0 [0; 1; 2; 3; 4]))
    with [0; 1; 2; 3; 4] in Hout.
  change (drop_excess_tail 5 5 (drop_negative_start 0 [0; 0.25; 0.5; 0.75; 1]%float))
    with [0; 0.25; 0.5; 0.75; 1]%float in Hout.
  destruct Hout as (r & Hr & Hfresh & Hg).
  exists r, (merge (curve_keyframes [0; 0.25; 0.5; 0.75; 1]%float [0; 1; 2; 3; 4]) ∅).
  split; [done|]. split; [done|]. split; [done|].
  unfold merge. rewrite keyframes_empty. split; vm_compute; reflexivity.
Qed.

End LinearCurve.

(** ** Batched strengths *)

Lemma batched_find (items : list float) (s : nat) (i : Z) :
  List.find (fun k => bool_decide (batch_index k = i))
    (map (fun '(idx, x) => Keyframe idx x) (imap (fun n x => (Z.of_nat (s + n), x)) items))
  = if Z.of_nat s <=? i then Keyframe i <$> items !! (Z.to_nat i - s)%nat else None.
Proof.
  revert s. induction items as [|x items IH]; intros s.
  - cbn. by destruct (Z.of_nat s <=? i).
  - cbn [imap map List.find batch_index].
    rewrite (imap_ext _ (fun n x => (Z.of_nat (S s + n), x))).
    2:{ intros n y _. cbn. do 2 f_equal. lia. }
    rewrite IH. case_bool_decide as Heq.
    + rewrite Nat.add_0_r in Heq. subst i.
      by rewrite Nat.add_0_r, Z.leb_refl, Nat2Z.id, Nat.sub_diag.
    + destruct (Z.leb_spec (Z.of_nat s) i) as [H1|H1],
               (Z.leb_spec (Z.of_nat (S s)) i) as [H2|H2]; try done; try lia.
      replace (Z.to_nat i - s)%nat with (S (Z.to_nat i - S s)) by lia. done.
Qed.

(** The group built from the items alone: item [n] at frame [n]. *)
Lemma batched_lookup (items : list float) (i : Z) :
  Group.add_all (batched_keyframes items) ∅ !! i
  = if 0 <=? i then Keyframe i <$> items !! Z.to_nat i else None.
Proof.
  rewrite add_all_fresh by apply lookup_empty.
  unfold batched_keyframes, LatentKeyframeBatchedGroupNodeImport.enumerate.
  pose proof (batched_find items 0 i) as Hfind.
  cbn [Nat.add Z.of_nat] in Hfind. rewrite Nat.sub_0_r in Hfind. exact Hfind.
Qed.

Lemma merge_empty (generated : list LatentKeyframeImport) :
  merge generated ∅ = Group.add_all generated ∅.
Proof. unfold merge. by rewrite keyframes_empty. Qed.

(** C6: for a list of floats and no previous group the batched entry
    point returns a new group that holds, at every frame [i] from 0 to
    [n-1], the keyframe of strength [items[i]] and holds no other frame;
    for a value of type [float] or [int] it returns a new group with no
    generated keyframe (only what the previous group held) and does not
    raise; for any other value that is not iterable it raises the
    [ValueError] whose message is built from the type of the value. *)
Theorem C6_batched_loader :
  (∀ (items : list float) (h : heap),
     let out := LatentKeyframeBatchedGroupNodeImport.load_keyframe (IterableValue items) None h in
     ∃ r g, fst out = Ok r ∧ (r ∉ dom h) ∧ snd out !! r = Some g ∧
            ∀ i, g !! i = if 0 <=? i then Keyframe i <$> items !! Z.to_nat i else None) ∧
  (∀ (strengths : strengths_value) (h : heap),
     let out := LatentKeyframeBatchedGroupNodeImport.load_keyframe strengths None h in
     match strengths with
     | FloatValue _ | IntValue _ =>
         ∃ r, fst out = Ok r ∧ (r ∉ dom h) ∧ snd out !! r = Some ∅
     | IterableValue _ => True
     | OtherValue type_name => fst out = Raise (ValueError (ExpectedIterable type_name))
     end) ∧
  (∀ (strengths : strengths_value) (prev : option loc) (h : heap),
     let out := LatentKeyframeBatchedGroupNodeImport.load_keyframe strengths prev h in
     match strengths with
     | FloatValue _ | IntValue _ =>
         ∃ r, fst out = Ok r ∧ (r ∉ dom h) ∧
              snd out !! r = Some (Group.add_all (Group.keyframes (previous_group h prev)) ∅)
     | IterableValue _ => True
     | OtherValue type_name => fst out = Raise (ValueError (ExpectedIterable type_name))
     end).
Proof.
  assert (Hscalar : ∀ (strengths : strengths_value) (prev : option loc) (h : heap),
     let out := LatentKeyframeBatchedGroupNodeImport.load_keyframe strengths prev h in
     match strengths with
     | FloatValue _ | IntValue _ =>
         ∃ r, fst out = Ok r ∧ (r ∉ dom h) ∧
              snd out !! r = Some (Group.add_all (Group.keyframes (previous_group h prev)) ∅)
     | IterableValue _ => True
     | OtherValue type_name => fst out = Raise (ValueError (ExpectedIterable type_name))
     end).
  { intros strengths prev h out.
    destruct (batched_outcome strengths prev h) as [_ Hout]. fold out in Hout.
    destruct strengths as [x|n|items|type_name]; [| |done|done];
      destruct Hout as (r & Hr & Hfresh & Hg); exists r;
      (split; [done|]; split; [done|]); exact Hg. }
  split; [|split; [|exact Hscalar]].
  - intros items h out.
    destruct (batched_outcome (IterableValue items) None h) as [_ (r & Hr & Hfresh & Hg)].
    exists r, (Group.add_all (batched_keyframes items) ∅).
    split; [done|]. split; [done|]. split.
    + subst out. rewrite Hg. cbn [previous_group]. by rewrite merge_empty.
    + apply batched_lookup.
  - intros strengths h out. pose proof (Hscalar strengths None h) as Hout.
    cbv zeta in Hout. fold out in Hout. cbn [previous_group] in Hout.
    rewrite keyframes_empty in Hout. exact Hout.
Qed.

(** ** Merging with the previous group *)

(** A frame index that some generated keyframe has is held, after the
    merge, by the first generated keyframe with that index. *)
Lemma merge_generated_first (generated : list LatentKeyframeImport)
    (previous : gmap Z LatentKeyframeImport) (i : Z) (k : LatentKeyframeImport) :
  List.find (fun k => bool_decide (batch_index k = i)) generated = Some k →
  merge generated previous !! i = Some k.
Proof.
  intros Hfind. unfold merge. apply add_all_keeps.
  by rewrite add_all_fresh by apply lookup_empty.
Qed.

Lemma merge_generated_wins (generated : list LatentKeyframeImport)
    (previous : gmap Z LatentKeyframeImport) (i : Z) :
  (∃ k, k ∈ generated ∧ batch_index k = i) →
  ∃ k, merge generated previous !! i = Some k ∧ k ∈ generated ∧ batch_index k = i.
Proof.
  intros (k0 & Hin & Hidx).
  destruct (List.find (fun k => bool_decide (batch_index k = i)) generated) as [k|] eqn:Hfind.
  - exists k. split; [by apply merge_generated_first|].
    apply find_some in Hfind as [Hk Hi]. split; [by apply list_elem_of_In|].
    by apply bool_decide_eq_true in Hi.
  - apply list_elem_of_In in Hin.
    pose proof (find_none _ _ Hfind _ Hin) as Hno. cbn in Hno.
    by apply bool_decide_eq_false in Hno.
Qed.

(** C3: each of the index-string, curve and batched entry points returns a
    new group into which the generated keyframes were added first and the
    keyframes of the previous group after them, all through [add]; so a
    frame index that both sides have holds, in the result, a keyframe of
    the side added first, the generated one. *)
Theorem C3_generated_then_previous :
  (∀ (py_float : string → option float) (index_strengths : string) (prev : option loc)
     (latent_image_opt : option Z) (h : heap) (generated : list LatentKeyframeImport),
     LatentKeyframeGroupNodeImport.convert_to_latent_keyframes py_float index_strengths
       (match latent_image_opt with Some n => n | None => -1 end) = Ok generated →
     returns_merge h prev generated
       (LatentKeyframeGroupNodeImport.load_keyframes py_float index_strengths prev
          latent_image_opt h)) ∧
  (∀ (np_cos : float → float) (batch_index_from : Z) (strength_from : float)
     (batch_index_to_excl : Z) (strength_to : float) (interpolation : string)
     (revert : bool) (last : Z) (prev : option loc) (h : heap)
     (weights : list float) (frame_numbers : list Z),
     LatentKeyframeInterpolationNodeImport.check_endpoints batch_index_from batch_index_to_excl
       = Ok () →
     LatentKeyframeInterpolationNodeImport.generate np_cos batch_index_from strength_from
       batch_index_to_excl strength_to interpolation revert = Ok (weights, frame_numbers) →
     let weights' :=
       LatentKeyframeInterpolationNodeImport.drop_excess_tail batch_index_to_excl last
         (LatentKeyframeInterpolationNodeImport.drop_negative_start batch_index_from weights) in
     let frame_numbers' :=
       LatentKeyframeInterpolationNodeImport.drop_excess_tail batch_index_to_excl last
         (LatentKeyframeInterpolationNodeImport.drop_negative_start batch_index_from
            frame_numbers) in
     frame_numbers' ≠ [] →
     returns_merge h prev (curve_keyframes weights' frame_numbers')
       (LatentKeyframeInterpolationNodeImport.load_keyframe np_cos batch_index_from
          strength_from batch_index_to_excl strength_to interpolation revert last prev h)) ∧
  (∀ (items : list float) (prev : option loc) (h : heap),
     returns_merge h prev (batched_keyframes items)
       (LatentKeyframeBatchedGroupNodeImport.load_keyframe (IterableValue items) prev h)) ∧
  (∀ (generated : list LatentKeyframeImport) (previous : gmap Z LatentKeyframeImport) (i : Z),
     (∃ k, k ∈ generated ∧ batch_index k = i) → is_Some (previous !! i) →
     ∃ k, merge generated previous !! i = Some k ∧ k ∈ generated ∧ batch_index k = i).
Proof.
  split; [|split; [|split]].
  - intros py_float index_strengths prev latent_image_opt h generated Hparse.
    destruct (load_keyframes_outcome py_float index_strengths prev latent_image_opt h)
      as [_ Hout].
    by rewrite Hparse in Hout.
  - intros np_cos batch_index_from strength_from batch_index_to_excl strength_to
      interpolation revert last prev h weights frame_numbers Hcheck Hgen weights'
      frame_numbers' Hleft.
    destruct (curve_outcome np_cos batch_index_from strength_from batch_index_to_excl
                strength_to interpolation revert last prev h) as [_ Hout].
    rewrite Hcheck, Hgen in Hout. cbv zeta in Hout.
    fold weights' frame_numbers' in Hout.
    by destruct frame_numbers'.
  - intros items prev h.
    by destruct (batched_outcome (IterableValue items) prev h) as [_ Hout].
  - intros generated previous i Hgen _. by apply merge_generated_wins.
Qed.

(** C3 on the string ["0, 2"], and on a collision at frame 0. *)
Lemma C3_generated_then_previous_witness :
  returns_merge ∅ None [Keyframe 0 1%float; Keyframe 2 1%float]
    (LatentKeyframeGroupNodeImport.load_keyframes (fun _ => None) "0, 2" None None ∅) ∧
  (∃ k, merge [Keyframe 0 0.5%float] {[0 := Keyframe 0 2%float]} !! 0 = Some k ∧
        k ∈ [Keyframe 0 0.5%float] ∧ batch_index k = 0).
Proof.
  split.
  - apply (proj1 C3_generated_then_previous (fun _ => None) "0, 2" None None ∅).
    vm_compute. reflexivity.
  - apply (proj2 (proj2 (proj2 C3_generated_then_previous))).
    + exists (Keyframe 0 0.5%float). split; [apply list_elem_of_here|reflexivity].
    + exists (Keyframe 0 2%float). apply lookup_singleton_eq.
Defined.

(** ** Adding one keyframe in place *)

Lemma single_add_run (batch_index : Z) (strength : float) (l : loc) (h : heap)
    (g : gmap Z LatentKeyframeImport) :
  h !! l = Some g → g ≠ ∅ →
  LatentKeyframeNodeImport.load_keyframe batch_index strength (Some l) h
  = (Ok l, <[l := Group.add (Keyframe batch_index strength) g]> h).
Proof.
  intros Hl Hg. unfold LatentKeyframeNodeImport.load_keyframe.
  rewrite bind_run. cbn [prev_or_new].
  rewrite (deref_lookup _ _ _ Hl).
  apply truthy_true in Hg. rewrite Hg.
  rewrite bind_run. unfold group_add. by rewrite (deref_lookup _ _ _ Hl).
Qed.

(** C5: given a reference to a non-empty group, the single-add entry point
    returns that very reference, allocates nothing, and the group behind
    it now has the new keyframe added; the index-string, curve and batched
    entry points leave every group of the caller as it was, and the
    reference they return is a new one. *)
Theorem C5_single_add_in_place :
  (∀ (batch_index : Z) (strength : float) (l : loc) (h : heap)
     (g : gmap Z LatentKeyframeImport),
     h !! l = Some g → g ≠ ∅ →
     LatentKeyframeNodeImport.load_keyframe batch_index strength (Some l) h
     = (Ok l, <[l := Group.add (Keyframe batch_index strength) g]> h)) ∧
  (∀ (py_float : string → option float) (index_strengths : string) (prev : option loc)
     (latent_image_opt : option Z) (h : heap),
     let out := LatentKeyframeGroupNodeImport.load_keyframes py_float index_strengths prev
                  latent_image_opt h in
     keeps h out ∧ ∀ r, fst out = Ok r → r ∉ dom h) ∧
  (∀ (np_cos : float → float) (batch_index_from : Z) (strength_from : float)
     (batch_index_to_excl : Z) (strength_to : float) (interpolation : string)
     (revert : bool) (last : Z) (prev : option loc) (h : heap),
     let out := LatentKeyframeInterpolationNodeImport.load_keyframe np_cos batch_index_from
                  strength_from batch_index_to_excl strength_to interpolation revert last
                  prev h in
     keeps h out ∧ ∀ r, fst out = Ok r → r ∉ dom h) ∧
  (∀ (strengths : strengths_value) (prev : option loc) (h : heap),
     let out := LatentKeyframeBatchedGroupNodeImport.load_keyframe strengths prev h in
     keeps h out ∧ ∀ r, fst out = Ok r → r ∉ dom h).
Proof.
  assert (Hnew : ∀ h prev generated (out : result loc * heap) r,
            returns_merge h prev generated out → fst out = Ok r → r ∉ dom h).
  { intros h prev generated out r (r' & Hr' & Hfresh & _) Hr. congruence. }
  split; [exact single_add_run|]. split; [|split].
  - intros py_float index_strengths prev latent_image_opt h out.
    destruct (load_keyframes_outcome py_float index_strengths prev latent_image_opt h)
      as [Hkeeps Hout]. fold out in Hkeeps, Hout.
    split; [done|]. intros r Hr.
    destruct (LatentKeyframeGroupNodeImport.convert_to_latent_keyframes _ _ _);
      [by eapply Hnew|congruence].
  - intros np_cos batch_index_from strength_from batch_index_to_excl strength_to
      interpolation revert last prev h out.
    destruct (curve_outcome np_cos batch_index_from strength_from batch_index_to_excl
                strength_to interpolation revert last prev h) as [Hkeeps Hout].
    fold out in Hkeeps, Hout. split; [done|]. intros r Hr.
    destruct (LatentKeyframeInterpolationNodeImport.check_endpoints _ _);
      [|rewrite Hout in Hr; done].
    destruct (LatentKeyframeInterpolationNodeImport.generate _ _ _ _ _ _ _)
      as [[weights frame_numbers]|e]; [|congruence].
    cbv zeta in Hout.
    destruct (LatentKeyframeInterpolationNodeImport.drop_excess_tail _ _
                (LatentKeyframeInterpolationNodeImport.drop_negative_start _ frame_numbers));
      [congruence|by eapply Hnew].
  - intros strengths prev h out.
    destruct (batched_outcome strengths prev h) as [Hkeeps Hout].
    fold out in Hkeeps, Hout. split; [done|]. intros r Hr.
    destruct strengths; [by eapply Hnew..|congruence].
Qed.

(** C5 on a heap with one group, which holds frame 3. *)
Lemma C5_single_add_in_place_witness :
  LatentKeyframeNodeImport.load_keyframe 5 0.5%float (Some 1%positive)
    {[1%positive := {[3 := Keyframe 3 1%float]}]}
  = (Ok 1%positive,
     <[1%positive := Group.add (Keyframe 5 0.5%float) {[3 := Keyframe 3 1%float]}]>
       {[1%positive := {[3 := Keyframe 3 1%float]}]}).
Proof.
  apply (proj1 C5_single_add_in_place).
  - reflexivity.
  - intros Hempty. apply (f_equal (fun g => g !! 3)) in Hempty. discriminate Hempty.
Defined.

(** ** Strings without separators *)

Lemma split_without (sep : ascii) (s : string) :
  PyStr.contains sep s = false → PyStr.split sep s = [s].
Proof.
  induction s as [|c s IH]; [done|].
  cbn [PyStr.contains PyStr.split]. intros H.
  apply orb_false_iff in H as [Hc Hs]. rewrite Hc, (IH Hs). done.
Qed.

Lemma lstrip_without (sep : ascii) (s : string) :
  PyStr.contains sep s = false → PyStr.contains sep (PyStr.lstrip s) = false.
Proof.
  induction s as [|c s IH]; [done|].
  cbn [PyStr.lstrip]. intros H. destruct (PyStr.is_space c); [|done].
  cbn [PyStr.contains] in H. apply orb_false_iff in H as [_ Hs]. by apply IH.
Qed.

Lemma rstrip_without (sep : ascii) (s : string) :
  PyStr.contains sep s = false → PyStr.contains sep (PyStr.rstrip s) = false.
Proof.
  induction s as [|c s IH]; [done|].
  cbn [PyStr.contains PyStr.rstrip]. intros H.
  apply orb_false_iff in H as [Hc Hs]. specialize (IH Hs).
  destruct (PyStr.rstrip s) as [|c' s'].
  - destruct (PyStr.is_space c); [done|]. cbn. by rewrite Hc.
  - cbn [PyStr.contains] in *. by rewrite Hc.
Qed.

Lemma strip_without (sep : ascii) (s : string) :
  PyStr.contains sep s = false → PyStr.contains sep (PyStr.strip s) = false.
Proof. intros H. unfold PyStr.strip. by apply rstrip_without, lstrip_without. Qed.

Lemma lstrip_starts_clean (s : string) : starts_clean (PyStr.lstrip s).
Proof.
  induction s as [|c s IH]; [done|].
  cbn [PyStr.lstrip]. by destruct (PyStr.is_space c) eqn:Hc.
Qed.

Lemma lstrip_clean (s : string) : starts_clean s → PyStr.lstrip s = s.
Proof. destruct s as [|c s]; [done|]. cbn. by intros ->. Qed.

Lemma rstrip_starts_clean (s : string) : starts_clean s → starts_clean (PyStr.rstrip s).
Proof.
  destruct s as [|c s]; [done|]. cbn [starts_clean PyStr.rstrip]. intros Hc.
  destruct (PyStr.rstrip s); [by rewrite Hc|done].
Qed.

Lemma rstrip_idempotent (s : string) : PyStr.rstrip (PyStr.rstrip s) = PyStr.rstrip s.
Proof.
  induction s as [|c s IH]; [done|].
  cbn [PyStr.rstrip]. destruct (PyStr.rstrip s) as [|c' s'] eqn:Hs.
  - destruct (PyStr.is_space c) eqn:Hc; [done|]. cbn. by rewrite Hc.
  - cbn [PyStr.rstrip] in *. by rewrite IH.
Qed.

Lemma strip_idempotent (s : string) : PyStr.strip (PyStr.strip s) = PyStr.strip s.
Proof.
  unfold PyStr.strip.
  rewrite (lstrip_clean (PyStr.rstrip (PyStr.lstrip s)))
    by apply rstrip_starts_clean, lstrip_starts_clean.
  apply rstrip_idempotent.
Qed.

(** [int] strips its argument itself. *)
Lemma int_strip (s : string) : PyStr.int (PyStr.strip s) = PyStr.int s.
Proof. unfold PyStr.int. by rewrite strip_idempotent. Qed.

Lemma int_nonempty (index : Z) : PyStr.int "" ≠ Some index.
Proof. done. Qed.

(** ** Plain indices *)

Section PlainIndex.

Context (py_float : string → option float).

Import LatentKeyframeGroupNodeImport.

(** A string that is one plain index token is parsed as one group: its
    integer goes through [validate_index] with negative indices allowed
    exactly when the batch length is positive, and gets strength 1.0. *)
Lemma plain_index_parse (g : string) (index latent_count : Z) :
  PyStr.int g = Some index →
  PyStr.contains "," g = false → PyStr.contains "=" g = false →
  PyStr.contains ":" g = false →
  convert_to_latent_keyframes py_float g latent_count =
  match validate_index index latent_count false (0 <? latent_count) with
  | Ok index' => Ok [Keyframe index' 1%float]
  | Raise e => Raise e
  end.
Proof.
  intros Hint Hcomma Heq Hcolon. unfold convert_to_latent_keyframes.
  destruct g as [|c g]; [done|].
  rewrite (split_without _ _ Hcomma). cbn [map for_each].
  unfold parse_group, parse_strength.
  rewrite (strip_without _ _ Heq). cbn [mbind result_bind].
  rewrite (strip_without _ _ Hcolon).
  change (global_name "LatentKeyframeImport") with (Ok ()). cbn [mbind result_bind].
  unfold convert_to_index_int. rewrite int_strip, Hint.
  by destruct (validate_index index latent_count false (0 <? latent_count)).
Qed.

(** C4: a plain index token parsed against the batch length
    [latent_count] fails with the out-of-range [IndexError] when
    [latent_count > 0] and the index exceeds [latent_count - 1]; a negative
    index fails with the not-allowed [IndexError] exactly when
    [latent_count <= 0]; when allowed it becomes [index + latent_count],
    and fails with the converted-out-of-range [IndexError] when that is
    still negative. *)
Theorem C4_plain_index_validation (g : string) (index latent_count : Z) :
  PyStr.int g = Some index →
  PyStr.contains "," g = false → PyStr.contains "=" g = false →
  PyStr.contains ":" g = false →
  let parsed := convert_to_latent_keyframes py_float g latent_count in
  (0 < latent_count → latent_count - 1 < index →
     parsed = Raise (IndexError (OutOfRange index latent_count))) ∧
  (index < 0 →
     (parsed = Raise (IndexError (NegativeNotAllowed index)) ↔ latent_count <= 0)) ∧
  (index < 0 → 0 < latent_count → 0 <= index + latent_count →
     parsed = Ok [Keyframe (index + latent_count) 1%float]) ∧
  (index < 0 → 0 < latent_count → index + latent_count < 0 →
     parsed = Raise (IndexError
                       (ConvertedOutOfRange index (latent_count + index) latent_count))) ∧
  (0 <= index → latent_count <= 0 ∨ index <= latent_count - 1 →
     parsed = Ok [Keyframe index 1%float]).
Proof.
  intros Hint Hcomma Heq Hcolon parsed. subst parsed.
  rewrite (plain_index_parse g index latent_count Hint Hcomma Heq Hcolon).
  unfold validate_index.
  repeat split; intros;
    repeat match goal with
      | |- context [?a <? ?b] => destruct (Z.ltb_spec a b)
      | H : context [?a <? ?b] |- _ => destruct (Z.ltb_spec a b)
      end;
    cbn [andb negb] in *; try lia; try done.
  by replace (latent_count + index) with (index + latent_count) by lia.
Qed.

End PlainIndex.

(** C4 on the token ["-1"]: frame 4 of a batch of 5, refused when the
    batch length is unknown (-1). *)
Lemma C4_plain_index_validation_witness :
  LatentKeyframeGroupNodeImport.convert_to_latent_keyframes (fun _ => None) "-1" 5
    = Ok [Keyframe 4 1%float] ∧
  LatentKeyframeGroupNodeImport.convert_to_latent_keyframes (fun _ => None) "-1" (-1)
    = Raise (IndexError (NegativeNotAllowed (-1))).
Proof.
  split.
  - apply (C4_plain_index_validation (fun _ => None) "-1" (-1) 5);
      first [reflexivity | lia].
  - apply (C4_plain_index_validation (fun _ => None) "-1" (-1) (-1));
      first [reflexivity | lia].
Defined.

(** ** Range groups *)

Section RangeGroup.

Context (py_float : string → option float).

Import LatentKeyframeGroupNodeImport.

(** A range inside the batch selects at least one index. *)
Lemma slice_in_range_nonempty (latent_count a b : Z) :
  0 <= a → a < b → b <= latent_count →
  py_slice (Some a) (Some b) (py_range 0 latent_count) ≠ [].
Proof.
  intros Ha Hab Hb Hnil. apply (f_equal length) in Hnil.
  unfold py_slice, clamp_index in Hnil.
  rewrite py_range_length in Hnil.
  destruct (Z.ltb_spec a 0); [lia|]. destruct (Z.ltb_spec b 0); [lia|].
  rewrite length_firstn, length_skipn, py_range_length in Hnil. cbn [length] in Hnil. lia.
Qed.

(** C1: parsing a range group [A:B] with [0 <= A < B <= latent_count] does
    not return the keyframes of the frames [A..B-1]: the loop over the
    slice calls the class by a name the module does not bind, and the
    first pass raises [NameError]. *)
Theorem C1_range_group_raises (latent_count a b : Z) :
  0 <= a → a < b → b <= latent_count →
  (∀ strength chosen,
     expand_range (py_range 0 latent_count) a b strength chosen
     = Raise (NameError "LatentKeyframImport")) ∧
  (∀ g g' strength chosen,
     parse_strength py_float g = Ok (g', strength) →
     PyStr.contains ":" g' = true →
     PyStr.int (nth 0 (map PyStr.strip (PyStr.split_once ":" g')) "") = Some a →
     PyStr.int (nth 1 (map PyStr.strip (PyStr.split_once ":" g')) "") = Some b →
     parse_group py_float latent_count g chosen = Raise (NameError "LatentKeyframImport")).
Proof.
  intros Ha Hab Hb.
  assert (Hexpand : ∀ strength chosen,
            expand_range (py_range 0 latent_count) a b strength chosen
            = Raise (NameError "LatentKeyframImport")).
  { intros strength chosen. unfold expand_range.
    pose proof (slice_in_range_nonempty latent_count a b Ha Hab Hb) as Hslice.
    by destruct (py_slice (Some a) (Some b) (py_range 0 latent_count)). }
  split; [exact Hexpand|].
  intros g g' strength chosen Hstrength Hcolon Hstart Hend.
  unfold parse_group. rewrite Hstrength. cbn [mbind result_bind]. rewrite Hcolon.
  unfold convert_to_index_int. rewrite Hstart, Hend.
  cbn [validate_index mbind result_bind]. apply Hexpand.
Qed.

End RangeGroup.

(** C1 on the string ["2:5"] with a batch of 10. *)
Lemma C1_range_group_raises_witness :
  LatentKeyframeGroupNodeImport.convert_to_latent_keyframes (fun _ => None) "2:5" 10
  = Raise (NameError "LatentKeyframImport").
Proof.
  change (LatentKeyframeGroupNodeImport.convert_to_latent_keyframes (fun _ => None) "2:5" 10)
    with (match LatentKeyframeGroupNodeImport.parse_group (fun _ => None) 10 "2:5" [] with
          | Ok chosen => Ok chosen
          | Raise e => Raise e
          end).
  rewrite (proj2 (C1_range_group_raises (fun _ => None) 10 2 5
                    ltac:(lia) ltac:(lia) ltac:(lia))
             "2:5" "2:5" 1%float [] eq_refl eq_refl eq_refl eq_refl).
  reflexivity.
Defined.

(** * Further properties of the index-string parser *)

(** ** Plain indices against a known batch length *)

Section IndexFacts.

Import LatentKeyframeGroupNodeImport.

(** With a batch length [latent_count > 0] and negative indices allowed,
    [validate_index] is Python's indexing of a sequence of that length:
    an index is accepted exactly when [-latent_count <= index <
    latent_count] and resolves to [index mod latent_count]; above the
    range it is the out-of-range error, below it the converted one. *)
Theorem validate_index_like_sequence_index (index latent_count : Z) :
  0 < latent_count →
  validate_index index latent_count false true =
  if latent_count <=? index then Raise (IndexError (OutOfRange index latent_count))
  else if index <? - latent_count
  then Raise (IndexError (ConvertedOutOfRange index (latent_count + index) latent_count))
  else Ok (index mod latent_count).
Proof.
  intros Hlc. unfold validate_index.
  destruct (Z.ltb_spec 0 latent_count) as [_|]; [|lia].
  destruct (Z.ltb_spec (latent_count - 1) index) as [Hhi|Hhi];
    destruct (Z.leb_spec latent_count index) as [Hle|Hle]; try lia; cbn [andb negb]; [done|].
  destruct (Z.ltb_spec index 0) as [Hneg|Hneg].
  - destruct (Z.ltb_spec (latent_count + index) 0) as [Hconv|Hconv];
      destruct (Z.ltb_spec index (- latent_count)) as [Hlow|Hlow]; try lia; [done|].
    f_equal. apply (Z.mod_unique _ _ (-1)); lia.
  - destruct (Z.ltb_spec index (- latent_count)) as [Hlow|Hlow]; [lia|].
    f_equal. symmetry. apply Z.mod_small. lia.
Qed.

(** An index that [validate_index] accepts outside a range is not
    negative, lies below a known batch length, and is accepted unchanged
    when validated again. *)
Theorem validate_index_accepts_positions (index latent_count : Z) (allow_negative : bool)
    (index' : Z) :
  validate_index index latent_count false allow_negative = Ok index' →
  0 <= index' ∧ (0 < latent_count → index' < latent_count) ∧
  validate_index index' latent_count false allow_negative = Ok index'.
Proof.
  unfold validate_index.
  destruct (Z.ltb_spec 0 latent_count) as [Hlc|Hlc];
    destruct (Z.ltb_spec (latent_count - 1) index) as [Hhi|Hhi]; cbn [andb];
    try discriminate;
    (destruct (Z.ltb_spec index 0) as [Hneg|Hneg];
     [destruct allow_negative; cbn [negb]; try discriminate;
      destruct (Z.ltb_spec (latent_count + index) 0) as [Hconv|Hconv]; try discriminate|]);
    intros [= <-];
    (split; [lia|]); (split; [lia|]);
    repeat match goal with
      | |- context [?a <? ?b] => destruct (Z.ltb_spec a b)
      end; cbn [andb negb]; first [done|lia].
Qed.

End IndexFacts.

(** The two theorems on a batch of 5: index -1 is position 4 and 7 is
    refused; an accepted position validates to itself. *)
Lemma validate_index_like_sequence_index_witness :
  LatentKeyframeGroupNodeImport.validate_index (-1) 5 false true = Ok 4 ∧
  LatentKeyframeGroupNodeImport.validate_index 7 5 false true
    = Raise (IndexError (OutOfRange 7 5)).
Proof.
  split.
  - rewrite (validate_index_like_sequence_index (-1) 5) by lia. reflexivity.
  - rewrite (validate_index_like_sequence_index 7 5) by lia. reflexivity.
Defined.

Lemma validate_index_accepts_positions_witness :
  0 <= 4 ∧ (0 < 5 → 4 < 5) ∧
  LatentKeyframeGroupNodeImport.validate_index 4 5 false true = Ok 4.
Proof. apply (validate_index_accepts_positions (-1) 5 true 4). reflexivity. Defined.

(** ** Range groups, whatever their end points *)

Lemma clamp_index_bounds (len i : Z) : 0 <= len → 0 <= clamp_index len i <= len.
Proof. intros Hlen. unfold clamp_index. destruct (Z.ltb_spec i 0); lia. Qed.

Lemma py_slice_length {A : Type} (a b : Z) (xs : list A) :
  length (py_slice (Some a) (Some b) xs)
  = Z.to_nat (clamp_index (Z.of_nat (length xs)) b - clamp_index (Z.of_nat (length xs)) a).
Proof.
  unfold py_slice. rewrite length_firstn, length_skipn.
  pose proof (clamp_index_bounds (Z.of_nat (length xs)) a ltac:(lia)).
  pose proof (clamp_index_bounds (Z.of_nat (length xs)) b ltac:(lia)).
  lia.
Qed.

Section RangeOutcome.

Context (py_float : string → option float).

Import LatentKeyframeGroupNodeImport.

(** A range group never adds a keyframe.  Its end points are not checked
    against the batch length: they are clamped as a slice of the frames
    [0..latent_count-1] clamps them.  When the slice is empty (always so
    when the batch length is not positive) the set is left as it was and
    nothing is raised; otherwise the group raises [NameError]. *)
Theorem range_group_outcome (latent_count a b : Z) (g g' : string) (strength : float)
    (chosen : list LatentKeyframeImport) :
  parse_strength py_float g = Ok (g', strength) →
  PyStr.contains ":" g' = true →
  PyStr.int (nth 0 (map PyStr.strip (PyStr.split_once ":" g')) "") = Some a →
  PyStr.int (nth 1 (map PyStr.strip (PyStr.split_once ":" g')) "") = Some b →
  let len := Z.max latent_count 0 in
  parse_group py_float latent_count g chosen =
    (if clamp_index len a <? clamp_index len b
     then Raise (NameError "LatentKeyframImport")
     else Ok chosen) ∧
  (latent_count <= 0 → parse_group py_float latent_count g chosen = Ok chosen).
Proof.
  intros Hstrength Hcolon Hstart Hend len.
  assert (Hrun : parse_group py_float latent_count g chosen =
            (if clamp_index len a <? clamp_index len b
             then Raise (NameError "LatentKeyframImport")
             else Ok chosen)).
  { unfold parse_group. rewrite Hstrength. cbn [mbind result_bind]. rewrite Hcolon.
    unfold convert_to_index_int. rewrite Hstart, Hend.
    cbn [validate_index mbind result_bind]. unfold expand_range.
    pose proof (py_slice_length a b (py_range 0 latent_count)) as Hlen.
    rewrite py_range_length in Hlen.
    replace (Z.of_nat (Z.to_nat (latent_count - 0))) with len in Hlen by (subst len; lia).
    destruct (Z.ltb_spec (clamp_index len a) (clamp_index len b)) as [Hlt|Hge];
      destruct (py_slice (Some a) (Some b) (py_range 0 latent_count)) as [|i rest];
      cbn [length] in Hlen; first [done|lia]. }
  split; [exact Hrun|].
  intros Hlc. rewrite Hrun.
  replace len with 0 by (subst len; lia).
  pose proof (clamp_index_bounds 0 a ltac:(lia)). pose proof (clamp_index_bounds 0 b ltac:(lia)).
  destruct (Z.ltb_spec (clamp_index 0 a) (clamp_index 0 b)); [lia|done].
Qed.

End RangeOutcome.

(** The range ["2:5"] with an unknown batch length (-1) adds nothing and
    raises nothing; the reversed range ["5:2"] of a batch of 10 neither. *)
Lemma range_group_outcome_witness :
  LatentKeyframeGroupNodeImport.parse_group (fun _ => None) (-1) "2:5" [] = Ok [] ∧
  LatentKeyframeGroupNodeImport.parse_group (fun _ => None) 10 "5:2" [] = Ok [].
Proof.
  split.
  - apply (range_group_outcome (fun _ => None) (-1) 2 5 "2:5" "2:5" 1%float []);
      first [reflexivity | lia].
  - rewrite (proj1 (range_group_outcome (fun _ => None) 10 5 2 "5:2" "5:2" 1%float []
                      eq_refl eq_refl eq_refl eq_refl)).
    reflexivity.
Defined.

(** ** Groups in sequence *)

Lemma split_nonempty (sep : ascii) (s : string) : PyStr.split sep s ≠ [].
Proof.
  induction s as [|c s IH]; [done|].
  cbn [PyStr.split]. destruct (Ascii.eqb c sep); [done|].
  by destruct (PyStr.split sep s).
Qed.

(** Splitting a text joined by the separator gives the pieces of both parts. *)
Lemma split_app (sep : ascii) (a b : string) :
  PyStr.split sep (a ++ String sep b)%string = PyStr.split sep a ++ PyStr.split sep b.
Proof.
  induction a as [|c a IH].
  - change (PyStr.split sep (String sep b) = "" :: PyStr.split sep b).
    cbn [PyStr.split]. by rewrite Ascii.eqb_refl.
  - change (PyStr.split sep (String c (a ++ String sep b)%string)
            = PyStr.split sep (String c a) ++ PyStr.split sep b).
    cbn [PyStr.split]. rewrite IH.
    destruct (Ascii.eqb c sep); [done|].
    pose proof (split_nonempty sep a) as Hne.
    by destruct (PyStr.split sep a).
Qed.

Lemma for_each_app {A S : Type} (body : A → S → result S) (xs ys : list A) (acc : S) :
  for_each body (xs ++ ys) acc =
  match for_each body xs acc with
  | Ok acc' => for_each body ys acc'
  | Raise e => Raise e
  end.
Proof.
  revert acc. induction xs as [|x xs IH]; intros acc; [done|].
  cbn [app for_each]. by destruct (body x acc).
Qed.

(** A loop over a list with an item on which the body always raises, raises. *)
Lemma for_each_raises {A S : Type} (body : A → S → result S) (xs : list A) (x : A) (acc : S) :
  x ∈ xs → (∀ acc', ∃ e, body x acc' = Raise e) →
  ∃ e, for_each body xs acc = Raise e.
Proof.
  intros Hin Hraise. revert acc.
  induction Hin as [x xs|x y xs Hin IH]; intros acc; cbn [for_each].
  - destruct (Hraise acc) as [e ->]. by exists e.
  - destruct (body y acc) as [acc'|e]; [by apply IH|by exists e].
Qed.

(** What holds of the set before a loop and is kept by every pass that
    returns, holds of the set the loop returns. *)
Lemma for_each_invariant {A S : Type} (P : S → Prop) (body : A → S → result S)
    (xs : list A) (acc acc' : S) :
  (∀ x a a', P a → body x a = Ok a' → P a') →
  P acc → for_each body xs acc = Ok acc' → P acc'.
Proof.
  intros Hbody. revert acc. induction xs as [|x xs IH]; intros acc Hacc; cbn [for_each].
  - by intros [= <-].
  - destruct (body x acc) as [a'|e] eqn:Hx; [|done]. apply IH. by eapply Hbody.
Qed.

Section ParserSequence.

Context (py_float : string → option float).

Import LatentKeyframeGroupNodeImport.

Lemma blank_group (latent_count : Z) (g : string) (chosen : list LatentKeyframeImport) :
  PyStr.strip g = "" →
  parse_group py_float latent_count (PyStr.strip g) chosen
  = Raise (ValueError (NotAnInteger "")).
Proof. by intros ->. Qed.

(** A string that is not empty and has a blank group (nothing, or only
    white space, between two commas or at either end) never parses: the
    parse raises, whatever the other groups are.  So does every string
    that ends in a comma.  A string of white space alone raises the
    [ValueError] of a non-integer index, although the empty string
    parses to the empty set. *)
Theorem blank_group_raises (latent_indeces : string) (latent_count : Z) :
  (latent_indeces ≠ "" →
   (∃ g, g ∈ PyStr.split "," latent_indeces ∧ PyStr.strip g = "") →
   ∃ e, convert_to_latent_keyframes py_float latent_indeces latent_count = Raise e) ∧
  (∃ e, convert_to_latent_keyframes py_float (latent_indeces ++ ",")%string latent_count
        = Raise e) ∧
  (latent_indeces ≠ "" → PyStr.contains "," latent_indeces = false →
   PyStr.strip latent_indeces = "" →
   convert_to_latent_keyframes py_float latent_indeces latent_count
   = Raise (ValueError (NotAnInteger ""))) ∧
  convert_to_latent_keyframes py_float "" latent_count = Ok [].
Proof.
  assert (Hblank : ∀ s, s ≠ "" →
            (∃ g, g ∈ PyStr.split "," s ∧ PyStr.strip g = "") →
            ∃ e, convert_to_latent_keyframes py_float s latent_count = Raise e).
  { intros s Hne (g & Hin & Hg). unfold convert_to_latent_keyframes.
    destruct s as [|c s]; [done|].
    apply (for_each_raises _ _ (PyStr.strip g)).
    - apply list_elem_of_fmap. by exists g.
    - intros acc'. eexists. by apply blank_group. }
  split; [apply Hblank|]. split; [|split; [|done]].
  - apply Hblank.
    + by destruct latent_indeces.
    + exists "". split; [|done].
      rewrite (split_app "," latent_indeces ""). apply elem_of_app. right.
      apply list_elem_of_here.
  - intros Hne Hcomma Hstrip. unfold convert_to_latent_keyframes.
    destruct latent_indeces as [|c s]; [done|].
    rewrite (split_without _ _ Hcomma). cbn [map for_each].
    by rewrite (blank_group latent_count _ [] Hstrip).
Qed.

(** Groups are parsed from left to right and the first one that raises
    ends the parse: a non-empty string followed by a comma and more text
    parses as the string itself, and only when that returned a set are
    the groups of the rest run, on that set. *)
Theorem parse_is_sequential (first rest : string) (latent_count : Z) :
  first ≠ "" →
  convert_to_latent_keyframes py_float (first ++ String "," rest)%string latent_count =
  match convert_to_latent_keyframes py_float first latent_count with
  | Ok chosen =>
      for_each (parse_group py_float latent_count)
        (map PyStr.strip (PyStr.split "," rest)) chosen
  | Raise e => Raise e
  end.
Proof.
  intros Hne. unfold convert_to_latent_keyframes.
  destruct first as [|c first]; [done|].
  change ((String c first ++ String "," rest)%string)
    with (String c (first ++ String "," rest)%string).
  change (String c (first ++ String "," rest)%string)
    with ((String c first ++ String "," rest)%string) at 2.
  rewrite (split_app "," (String c first) rest), map_app.
  apply for_each_app.
Qed.

End ParserSequence.

(** A trailing comma: ["1,"] raises; and ["x,2:5"] raises the error of
    its first group whatever follows. *)
Lemma blank_group_raises_witness :
  ∃ e, LatentKeyframeGroupNodeImport.convert_to_latent_keyframes (fun _ => None) "1," 5
       = Raise e.
Proof.
  apply (proj1 (blank_group_raises (fun _ => None) "1," 5)); [done|].
  exists "". split; [|reflexivity]. apply list_elem_of_In. simpl. auto.
Defined.

Lemma parse_is_sequential_witness :
  LatentKeyframeGroupNodeImport.convert_to_latent_keyframes (fun _ => None) "x,2:5" 10
  = match LatentKeyframeGroupNodeImport.convert_to_latent_keyframes (fun _ => None) "x" 10 with
    | Ok chosen =>
        for_each (LatentKeyframeGroupNodeImport.parse_group (fun _ => None) 10)
          (map PyStr.strip (PyStr.split "," "2:5")) chosen
    | Raise e => Raise e
    end.
Proof. apply (parse_is_sequential (fun _ => None) "x" "2:5" 10). done. Defined.

(** ** What the parser returns *)

Section ParserOutput.

Context (py_float : string → option float).

Import LatentKeyframeGroupNodeImport.

Lemma validate_index_bounds (index latent_count : Z) (allow_negative : bool) (index' : Z) :
  validate_index index latent_count false allow_negative = Ok index' →
  0 <= index' ∧ (0 < latent_count → index' < latent_count).
Proof.
  unfold validate_index.
  destruct (Z.ltb_spec 0 latent_count) as [Hlc|Hlc];
    destruct (Z.ltb_spec (latent_count - 1) index) as [Hhi|Hhi]; cbn [andb];
    try discriminate;
    (destruct (Z.ltb_spec index 0) as [Hneg|Hneg];
     [destruct allow_negative; cbn [negb]; try discriminate;
      destruct (Z.ltb_spec (latent_count + index) 0) as [Hconv|Hconv]; try discriminate|]);
    intros [= <-]; lia.
Qed.

Lemma parse_strength_not_negative (g g' : string) (strength : float) :
  parse_strength py_float g = Ok (g', strength) → (strength <? 0)%float = false.
Proof.
  unfold parse_strength. destruct (PyStr.contains "=" g).
  - destruct (py_float _) as [x|]; [|done].
    destruct (x <? 0)%float eqn:Hx; [done|]. by intros [= _ <-].
  - by intros [= _ <-].
Qed.

Lemma set_add_keeps (latent_count : Z) (k : LatentKeyframeImport)
    (chosen : list LatentKeyframeImport) :
  keyframe_ok latent_count k → Forall (keyframe_ok latent_count) chosen →
  Forall (keyframe_ok latent_count) (set_add k chosen).
Proof.
  intros Hk Hchosen. unfold set_add. destruct (existsb _ chosen); [done|].
  apply Forall_app. split; [done|]. by apply Forall_singleton.
Qed.

(** The loop over a slice returns only when the slice is empty. *)
Lemma expand_range_ok (all_indeces : list Z) (a b : Z) (strength : float)
    (chosen chosen' : list LatentKeyframeImport) :
  expand_range all_indeces a b strength chosen = Ok chosen' → chosen' = chosen.
Proof.
  unfold expand_range. destruct (py_slice (Some a) (Some b) all_indeces); [|done].
  by intros [= <-].
Qed.

Lemma parse_group_keeps (latent_count : Z) (g : string)
    (chosen chosen' : list LatentKeyframeImport) :
  Forall (keyframe_ok latent_count) chosen →
  parse_group py_float latent_count g chosen = Ok chosen' →
  Forall (keyframe_ok latent_count) chosen'.
Proof.
  intros Hchosen. unfold parse_group.
  destruct (parse_strength py_float g) as [[g' s]|e] eqn:Hstrength; [|done].
  cbn [mbind result_bind].
  destruct (PyStr.contains ":" g').
  - destruct (convert_to_index_int (nth 0 _ _) _ _ _) as [a|e];
      cbn [mbind result_bind]; [|done].
    destruct (convert_to_index_int (nth 1 _ _) _ _ _) as [b|e];
      cbn [mbind result_bind]; [|done].
    intros Hrange. by rewrite (expand_range_ok _ _ _ _ _ _ Hrange).
  - change (global_name "LatentKeyframeImport") with (Ok ()). cbn [mbind result_bind].
    unfold convert_to_index_int. destruct (PyStr.int g') as [index|]; [|done].
    destruct (validate_index index latent_count false (0 <? latent_count))
      as [index'|e] eqn:Hvalid; cbn [mbind result_bind]; [|done].
    intros [= <-].
    apply set_add_keeps; [|done].
    apply validate_index_bounds in Hvalid as [Hlow Hhigh].
    split; [done|]. split; [done|]. cbn [strength].
    by eapply parse_strength_not_negative.
Qed.

(** Every keyframe that the index-string parser returns has a frame index
    that is not negative and lies below the batch length when that is
    known (positive), and a strength that is not below zero; and this for
    any string that parses, whatever its groups. *)
Theorem parser_returns_valid_keyframes (latent_indeces : string) (latent_count : Z)
    (chosen : list LatentKeyframeImport) :
  convert_to_latent_keyframes py_float latent_indeces latent_count = Ok chosen →
  Forall (keyframe_ok latent_count) chosen.
Proof.
  unfold convert_to_latent_keyframes.
  destruct latent_indeces as [|c s]; [by intros [= <-]|].
  apply (for_each_invariant (Forall (keyframe_ok latent_count))); [|done].
  intros g a a' Ha Hg. by eapply parse_group_keeps.
Qed.

End ParserOutput.

(** The string ["-1, 2"] on a batch of 5: frames 4 and 2, strength 1.0. *)
Lemma parser_returns_valid_keyframes_witness :
  Forall (keyframe_ok 5) [Keyframe 4 1%float; Keyframe 2 1%float].
Proof.
  apply (parser_returns_valid_keyframes (fun _ => None) "-1, 2" 5). reflexivity.
Defined.

(** ** Groups with a strength *)

Lemma contains_app (sep : ascii) (a b : string) :
  PyStr.contains sep (a ++ String sep b)%string = true.
Proof.
  induction a as [|c a IH].
  - change (PyStr.contains sep (String sep b) = true).
    cbn [PyStr.contains]. by rewrite Ascii.eqb_refl.
  - change (PyStr.contains sep (String c (a ++ String sep b)%string) = true).
    cbn [PyStr.contains]. rewrite IH. apply orb_true_r.
Qed.

(** Splitting once at the first separator gives back the two parts. *)
Lemma split_once_app (sep : ascii) (a b : string) :
  PyStr.contains sep a = false →
  PyStr.split_once sep (a ++ String sep b)%string = [a; b].
Proof.
  induction a as [|c a IH]; intros Ha.
  - change (PyStr.split_once sep (String sep b) = [""; b]).
    cbn [PyStr.split_once]. by rewrite Ascii.eqb_refl.
  - change (PyStr.split_once sep (String c (a ++ String sep b)%string) = [String c a; b]).
    cbn [PyStr.contains] in Ha. apply orb_false_iff in Ha as [Hc Ha].
    cbn [PyStr.split_once]. by rewrite Hc, (IH Ha).
Qed.

Section StrengthSuffix.

Context (py_float : string → option float).

Import LatentKeyframeGroupNodeImport.

(** A group [I=S], with no [=] in [I]: when [S] is not a float the group
    raises the [ValueError] that carries [S] as written, and when the
    float is below zero the [ValueError] that carries it, in both cases
    before [I] is looked at; otherwise, for a plain index [I], the index is
    validated and enters the set with the strength [S] (a NaN among them,
    as it is not below zero). *)
Theorem strength_suffix_group (index_text strength_text : string) (latent_count : Z)
    (chosen : list LatentKeyframeImport) :
  PyStr.contains "=" index_text = false →
  let g := (index_text ++ String "=" strength_text)%string in
  (py_float (PyStr.strip strength_text) = None →
   parse_group py_float latent_count g chosen
   = Raise (ValueError (NotAFloat strength_text))) ∧
  (∀ x, py_float (PyStr.strip strength_text) = Some x → (x <? 0)%float = true →
        parse_group py_float latent_count g chosen
        = Raise (ValueError (NegativeStrength x))) ∧
  (∀ x index, py_float (PyStr.strip strength_text) = Some x → (x <? 0)%float = false →
              PyStr.contains ":" index_text = false → PyStr.int index_text = Some index →
              parse_group py_float latent_count g chosen =
              match validate_index index latent_count false (0 <? latent_count) with
              | Ok index' => Ok (set_add (Keyframe index' x) chosen)
              | Raise e => Raise e
              end).
Proof.
  intros Heq g.
  assert (Hstrength : parse_strength py_float g =
            match py_float (PyStr.strip strength_text) with
            | Some x =>
                if (x <? 0)%float then Raise (ValueError (NegativeStrength x))
                else Ok (PyStr.strip index_text, x)
            | None => Raise (ValueError (NotAFloat strength_text))
            end).
  { unfold parse_strength. subst g.
    by rewrite contains_app, (split_once_app _ _ _ Heq). }
  unfold parse_group. rewrite Hstrength. split; [|split].
  - by intros ->.
  - by intros x -> ->.
  - intros x index -> -> Hcolon Hint. cbn [mbind result_bind].
    rewrite (strip_without _ _ Hcolon).
    change (global_name "LatentKeyframeImport") with (Ok ()). cbn [mbind result_bind].
    unfold convert_to_index_int. rewrite int_strip, Hint.
    by destruct (validate_index index latent_count false (0 <? latent_count)).
Qed.

End StrengthSuffix.

(** The groups ["x=-1"]: a negative strength is reported although the
    index is no integer; and ["3=nan"] with a [float] that reads NaN. *)
Lemma strength_suffix_group_witness :
  LatentKeyframeGroupNodeImport.parse_group (fun _ => Some (-1)%float) 5 "x=-1" []
    = Raise (ValueError (NegativeStrength (-1)%float)) ∧
  LatentKeyframeGroupNodeImport.parse_group (fun _ => Some nan) 5 "3=nan" []
    = Ok [Keyframe 3 nan].
Proof.
  split.
  - apply (proj1 (proj2 (strength_suffix_group (fun _ => Some (-1)%float) "x" "-1" 5 []
                           eq_refl))); reflexivity.
  - exact (proj2 (proj2 (strength_suffix_group (fun _ => Some nan) "3" "nan" 5 []
                           eq_refl)) nan 3 eq_refl eq_refl eq_refl eq_refl).
Defined.

(** * Further properties of the curve *)

(** ** Ranges cut at either end *)

Lemma py_range_lookup_ge (lo hi : Z) (i : nat) :
  (Z.to_nat (hi - lo) ≤ i)%nat → py_range lo hi !! i = None.
Proof. intros Hi. apply lookup_ge_None. by rewrite py_range_length. Qed.

Lemma py_range_ext (lo hi : Z) (l : list Z) :
  length l = Z.to_nat (hi - lo) →
  (∀ i, (i < length l)%nat → l !! i = Some (lo + Z.of_nat i)) →
  l = py_range lo hi.
Proof.
  intros Hlen Hl. apply list_eq. intros i.
  destruct (Nat.lt_ge_cases i (length l)) as [Hi|Hi].
  - rewrite (Hl i Hi), py_range_lookup by lia. done.
  - rewrite py_range_lookup_ge by lia. by apply lookup_ge_None.
Qed.

Lemma py_range_skipn (lo hi : Z) (n : nat) :
  skipn n (py_range lo hi) = py_range (lo + Z.of_nat n) hi.
Proof.
  apply py_range_ext.
  - rewrite length_skipn, py_range_length. lia.
  - intros i Hi. rewrite length_skipn, py_range_length in Hi.
    rewrite lookup_drop, py_range_lookup by lia. f_equal. lia.
Qed.

Lemma py_range_firstn (lo hi : Z) (n : nat) :
  (n ≤ Z.to_nat (hi - lo))%nat →
  firstn n (py_range lo hi) = py_range lo (lo + Z.of_nat n).
Proof.
  intros Hn. apply py_range_ext.
  - rewrite length_firstn, py_range_length. lia.
  - intros i Hi. rewrite length_firstn, py_range_length in Hi.
    rewrite lookup_take_lt, py_range_lookup by lia. done.
Qed.

Lemma py_range_empty (lo hi : Z) : hi <= lo → py_range lo hi = [].
Proof. intros Hle. apply length_zero_iff_nil. rewrite py_range_length. lia. Qed.

Lemma py_range_cons (lo hi : Z) : lo < hi → py_range lo hi = lo :: py_range (lo + 1) hi.
Proof.
  intros Hlt. unfold py_range.
  replace (Z.to_nat (hi - lo)) with (S (Z.to_nat (hi - (lo + 1)))) by lia.
  cbn [seq map]. f_equal; [lia|].
  rewrite <- seq_shift, map_map. apply map_ext. intros i. lia.
Qed.

(** ** The frames that a curve writes *)

Section CurveFrames.

Context (np_cos : float → float).

Import LatentKeyframeInterpolationNodeImport.

(** After both droppers the frame numbers are still consecutive, and the
    weights are as many. *)
Lemma curve_left (batch_index_from : Z) (strength_from : float)
    (batch_index_to_excl : Z) (strength_to : float) (interpolation : string)
    (revert : bool) (last : Z) (weights : list float) (frame_numbers : list Z) :
  generate np_cos batch_index_from strength_from batch_index_to_excl strength_to
    interpolation revert = Ok (weights, frame_numbers) →
  let n := Z.of_nat (length weights) in
  let lo := batch_index_from + dropped_at_start batch_index_from n in
  let left := pairs_left batch_index_from batch_index_to_excl last n in
  drop_excess_tail batch_index_to_excl last (drop_negative_start batch_index_from frame_numbers)
  = py_range lo (lo + left) ∧
  length (drop_excess_tail batch_index_to_excl last
            (drop_negative_start batch_index_from weights)) = Z.to_nat left.
Proof.
  intros Hgen n lo left.
  pose proof (generate_frames _ _ _ _ _ _ _ _ _ Hgen) as Hframes. fold n in Hframes.
  assert (Hfn : drop_excess_tail batch_index_to_excl last
                  (drop_negative_start batch_index_from frame_numbers)
                = py_range lo (lo + left)).
  { subst frame_numbers lo left. unfold pairs_left, dropped_at_start.
    rewrite drop_excess_tail_firstn, drop_negative_start_skipn.
    destruct (batch_index_from <? 0) eqn:Hneg, (last <? batch_index_to_excl) eqn:Hgt;
      rewrite ?py_range_skipn;
      rewrite ?py_range_firstn by (rewrite py_range_length; lia);
      rewrite ?py_range_length;
      first [ f_equal; lia
            | destruct (Z.le_gt_cases n (- batch_index_from));
              [rewrite !py_range_empty by lia; reflexivity | f_equal; lia] ]. }
  split; [exact Hfn|].
  rewrite (droppers_length batch_index_from batch_index_to_excl last weights frame_numbers).
  - rewrite Hfn, py_range_length. f_equal. lia.
  - rewrite Hframes, py_range_length. lia.
Qed.

(** The frames of a curve, for end points that pass the checks and one of
    the four shapes. *)
Lemma curve_frames (batch_index_from : Z) (strength_from : float)
    (batch_index_to_excl : Z) (strength_to : float) (interpolation : string)
    (revert : bool) (last : Z) (prev : option loc) (h : heap) :
  batch_index_from <= batch_index_to_excl →
  ¬ (batch_index_from < 0 <= batch_index_to_excl) →
  interpolation ∈ shapes →
  let n := pairs_generated revert batch_index_from batch_index_to_excl in
  let lo := batch_index_from + dropped_at_start batch_index_from n in
  let left := pairs_left batch_index_from batch_index_to_excl last n in
  let out := load_keyframe np_cos batch_index_from strength_from batch_index_to_excl
               strength_to interpolation revert last prev h in
  (left = 0 → fst out = Raise (IndexError (ArrayIndexOutOfBounds 0 0))) ∧
  (0 < left →
   ∃ weights generated,
     length weights = Z.to_nat left ∧
     generated = imap (fun i weight => Keyframe (lo + Z.of_nat i) weight) weights ∧
     returns_merge h prev generated out).
Proof.
  intros Hle Hsign Hshape n lo left out.
  destruct (curve_outcome np_cos batch_index_from strength_from batch_index_to_excl
              strength_to interpolation revert last prev h) as [_ Hout].
  fold out in Hout.
  assert (Hcheck : check_endpoints batch_index_from batch_index_to_excl = Ok ()).
  { unfold check_endpoints.
    destruct (Z.ltb_spec batch_index_to_excl batch_index_from); [lia|].
    destruct (Z.ltb_spec batch_index_from 0), (Z.leb_spec 0 batch_index_to_excl);
      cbn [andb]; try done. lia. }
  rewrite Hcheck in Hout.
  destruct (generate_ok np_cos batch_index_from strength_from batch_index_to_excl
              strength_to interpolation revert Hle Hshape)
    as (weights & frame_numbers & Hgen & Hlen).
  rewrite Hgen in Hout. cbv zeta in Hout.
  destruct (curve_left _ _ _ _ _ _ last _ _ Hgen) as [Hfn Hws].
  assert (Hn : Z.of_nat (length weights) = n).
  { subst n. unfold pairs_generated. rewrite Hlen.
    assert (0 <= (batch_index_to_excl - batch_index_from) / 2) by (apply Z.div_pos; lia).
    destruct revert; lia. }
  rewrite Hn in Hfn, Hws. fold lo left in Hfn, Hws.
  rewrite Hfn in Hout. split.
  - intros Hzero. rewrite Hzero, py_range_empty in Hout by lia. exact Hout.
  - intros Hpos. rewrite py_range_cons in Hout by lia.
    eexists _, _. split; [exact Hws|]. split; [reflexivity|]. exact Hout.
Qed.

End CurveFrames.

(** ** The strengths that a curve writes *)

Lemma rev_lookup {A : Type} (l : list A) (i : nat) :
  (i < length l)%nat → rev l !! i = l !! (length l - S i)%nat.
Proof. rewrite rev_alt. apply reverse_lookup. Qed.

Lemma curve_find (weights : list float) (lo : Z) (j : nat) :
  List.find (fun k => bool_decide (batch_index k = lo + Z.of_nat j))
    (imap (fun i weight => Keyframe (lo + Z.of_nat i) weight) weights)
  = Keyframe (lo + Z.of_nat j) <$> weights !! j.
Proof.
  revert lo j. induction weights as [|x weights IH]; intros lo j; [done|].
  cbn [imap List.find batch_index]. case_bool_decide as Heq.
  - assert (j = 0%nat) as -> by lia. done.
  - destruct j as [|j]; [done|].
    rewrite (imap_ext _ (fun i weight => Keyframe (lo + 1 + Z.of_nat i) weight)).
    2:{ intros i y _. cbn. f_equal. lia. }
    replace (lo + Z.of_nat (S j)) with (lo + 1 + Z.of_nat j) by lia.
    apply IH.
Qed.

Lemma curve_indices (weights : list float) (lo : Z) :
  map batch_index (imap (fun i weight => Keyframe (lo + Z.of_nat i) weight) weights)
  = py_range lo (lo + Z.of_nat (length weights)).
Proof.
  apply py_range_ext.
  - rewrite length_map, length_imap. lia.
  - intros i Hi. rewrite length_map, length_imap in Hi.
    rewrite list_lookup_fmap, list_lookup_imap.
    destruct (lookup_lt_is_Some_2 weights i Hi) as [w ->]. done.
Qed.

(** The frame [lo + j] of a merge holds the [j]-th generated weight,
    whatever the previous group holds there. *)
Lemma curve_lookup (weights : list float) (lo : Z) (j : nat) (w : float)
    (previous : gmap Z LatentKeyframeImport) :
  weights !! j = Some w →
  merge (imap (fun i weight => Keyframe (lo + Z.of_nat i) weight) weights) previous
    !! (lo + Z.of_nat j) = Some (Keyframe (lo + Z.of_nat j) w).
Proof.
  intros Hw. apply merge_generated_first. by rewrite curve_find, Hw.
Qed.

Lemma set_last_last (y : list float) (v : float) :
  y ≠ [] → last (np.set_last y v) = Some v.
Proof.
  induction y as [|x [|x' y] IH]; [done|done|]. intros _.
  change (np.set_last (x :: x' :: y) v) with (x :: np.set_last (x' :: y) v).
  assert (Hlast : last (np.set_last (x' :: y) v) = Some v) by by apply IH.
  destruct (np.set_last (x' :: y) v) eqn:Hs; [done|]. exact Hlast.
Qed.

Lemma linspace_last (start stop : float) (num : Z) (y : list float) :
  2 <= num → np.linspace start stop num = Ok y → last y = Some stop.
Proof.
  intros Hnum Hy.
  destruct (linspace_ok start stop num) as (y' & Hy' & Hlen); [lia|].
  unfold np.linspace in Hy.
  destruct (num <? 0) eqn:Hneg; [lia|].
  destruct (Z.ltb_spec 1 num); [|lia].
  inversion Hy as [Heq]. apply set_last_last.
  intros Hnil. apply (f_equal (@length float)) in Hnil.
  rewrite length_map in Hnil.
  assert (Hlen' : ∀ l : list float, length l = Z.to_nat num → length l ≠ 0%nat) by lia.
  destruct (0 <? num - 1); [destruct (_ =? _)%float|];
    rewrite length_map in Hnil; eapply Hlen'; try exact Hnil;
    rewrite length_map, py_range_length; f_equal; lia.
Qed.

Section CurveStrengths.

Context (np_cos : float → float).

Import LatentKeyframeInterpolationNodeImport.

(** With the reversal the weights are those of the forward half followed
    by the same weights backwards. *)
Lemma generate_reverted (batch_index_from : Z) (strength_from : float)
    (batch_index_to_excl : Z) (strength_to : float) (interpolation : string)
    (weights : list float) (frame_numbers : list Z) :
  generate np_cos batch_index_from strength_from batch_index_to_excl strength_to
    interpolation true = Ok (weights, frame_numbers) →
  ∃ half, weights = half ++ rev half.
Proof.
  unfold generate. intros H.
  destruct (np.linspace 0 1 _) as [index|e]; [|done]. cbn in H.
  destruct (shape_weights _ _ _ _ _) as [half|e]; [|done]. cbn in H.
  exists half. by inversion H.
Qed.

(** The forward half of a linear curve of two points or more ends in
    [strength_to]. *)
Lemma generate_linear (batch_index_from : Z) (strength_from : float)
    (batch_index_to_excl : Z) (strength_to : float) (revert : bool) :
  let steps := batch_index_to_excl - batch_index_from in
  let points := if revert then steps / 2 + 1 else steps in
  2 <= points →
  ∃ half frame_numbers,
    generate np_cos batch_index_from strength_from batch_index_to_excl strength_to
      "linear" revert
    = Ok (if revert then half ++ rev half else half, frame_numbers) ∧
    length half = Z.to_nat points ∧ last half = Some strength_to.
Proof.
  intros steps points Hpoints. unfold generate. fold steps.
  assert (Hindex : ∃ index, (if revert then np.linspace 0 1 (steps / 2 + 1)
                             else np.linspace 0 1 steps) = Ok index ∧
                            length index = Z.to_nat points).
  { subst points. destruct revert; apply linspace_ok; lia. }
  destruct Hindex as (index & -> & Hlen). cbn [mbind result_bind].
  unfold shape_weights. cbn [String.eqb Ascii.eqb Bool.eqb].
  destruct (linspace_ok strength_from strength_to (Z.of_nat (length index)))
    as (half & Hhalf & Hlenhalf); [lia|].
  rewrite Hhalf. cbn [mbind result_bind].
  assert (Hnum : 2 <= Z.of_nat (length index)) by (rewrite Hlen; lia).
  destruct revert; exists half; eexists; (split; [reflexivity|]); (split; [lia|]);
    exact (linspace_last strength_from strength_to _ _ Hnum Hhalf).
Qed.

(** A curve that neither dropper cuts: every generated weight is written,
    from [batch_index_from] on. *)
Lemma curve_undropped (batch_index_from : Z) (strength_from : float)
    (batch_index_to_excl : Z) (strength_to : float) (interpolation : string)
    (revert : bool) (last : Z) (prev : option loc) (h : heap)
    (weights : list float) (frame_numbers : list Z) :
  0 <= batch_index_from <= batch_index_to_excl → batch_index_to_excl <= last →
  generate np_cos batch_index_from strength_from batch_index_to_excl strength_to
    interpolation revert = Ok (weights, frame_numbers) →
  weights ≠ [] →
  returns_merge h prev
    (imap (fun i weight => Keyframe (batch_index_from + Z.of_nat i) weight) weights)
    (load_keyframe np_cos batch_index_from strength_from batch_index_to_excl
       strength_to interpolation revert last prev h).
Proof.
  intros Hfrom Hlast Hgen Hne.
  destruct (curve_outcome np_cos batch_index_from strength_from batch_index_to_excl
              strength_to interpolation revert last prev h) as [_ Hout].
  rewrite check_endpoints_ok, Hgen in Hout by lia. cbv zeta in Hout.
  unfold drop_negative_start, drop_excess_tail in Hout.
  destruct (Z.ltb_spec batch_index_from 0); [lia|].
  destruct (Z.ltb_spec last batch_index_to_excl); [lia|].
  rewrite (generate_frames _ _ _ _ _ _ _ _ _ Hgen) in Hout.
  rewrite py_range_cons in Hout by (destruct weights; [done|cbn [length]; lia]).
  exact Hout.
Qed.

End CurveStrengths.

(** ** Which frames a curve writes *)

Section CurveWindow.

Context (np_cos : float → float).

Import LatentKeyframeInterpolationNodeImport.

(** For end points that pass both checks and one of the four shapes the
    outcome of the curve entry point depends on the integers alone: of the
    [n] pairs generated ([n] the width of the window, or twice the points
    of its forward half with the reversal) the droppers leave
    [pairs_left]; with none left the entry point raises numpy's
    [IndexError], otherwise it returns a new group whose generated
    keyframes sit on the consecutive frames that start after the pairs
    dropped at the start. *)
Theorem curve_writes_consecutive_frames (batch_index_from : Z) (strength_from : float)
    (batch_index_to_excl : Z) (strength_to : float) (interpolation : string)
    (revert : bool) (last : Z) (prev : option loc) (h : heap) :
  batch_index_from <= batch_index_to_excl →
  ¬ (batch_index_from < 0 <= batch_index_to_excl) →
  interpolation ∈ shapes →
  let n := pairs_generated revert batch_index_from batch_index_to_excl in
  let lo := batch_index_from + dropped_at_start batch_index_from n in
  let left := pairs_left batch_index_from batch_index_to_excl last n in
  let out := load_keyframe np_cos batch_index_from strength_from batch_index_to_excl
               strength_to interpolation revert last prev h in
  (left = 0 → fst out = Raise (IndexError (ArrayIndexOutOfBounds 0 0))) ∧
  (0 < left →
   ∃ generated, returns_merge h prev generated out ∧
                map batch_index generated = py_range lo (lo + left)).
Proof.
  intros Hle Hsign Hshape n lo left out.
  destruct (curve_frames np_cos batch_index_from strength_from batch_index_to_excl
              strength_to interpolation revert last prev h Hle Hsign Hshape)
    as [Hnone Hsome].
  split; [exact Hnone|]. intros Hpos.
  destruct (Hsome Hpos) as (weights & generated & Hlen & -> & Hout).
  eexists. split; [exact Hout|].
  rewrite curve_indices, Hlen. subst left lo n. f_equal. lia.
Qed.

(** Without the reversal and from a start that is not negative, the curve
    never leaves its window: the generated keyframes sit exactly on the
    frames from [batch_index_from] up to, and without, the smaller of
    [batch_index_to_excl] and [last_key_frame_position]; when there is no
    such frame the entry point raises numpy's [IndexError]. *)
Theorem plain_curve_stays_in_window (batch_index_from : Z) (strength_from : float)
    (batch_index_to_excl : Z) (strength_to : float) (interpolation : string)
    (last : Z) (prev : option loc) (h : heap) :
  0 <= batch_index_from <= batch_index_to_excl →
  interpolation ∈ shapes →
  let stop := Z.min batch_index_to_excl last in
  let out := load_keyframe np_cos batch_index_from strength_from batch_index_to_excl
               strength_to interpolation false last prev h in
  (stop <= batch_index_from → fst out = Raise (IndexError (ArrayIndexOutOfBounds 0 0))) ∧
  (batch_index_from < stop →
   ∃ generated, returns_merge h prev generated out ∧
                map batch_index generated = py_range batch_index_from stop).
Proof.
  intros Hfrom Hshape stop out.
  destruct (curve_frames np_cos batch_index_from strength_from batch_index_to_excl
              strength_to interpolation false last prev h) as [Hnone Hsome]; [lia|lia|done|].
  fold out in Hnone, Hsome. revert Hnone Hsome.
  unfold pairs_left, dropped_at_start, pairs_generated.
  destruct (Z.ltb_spec batch_index_from 0); [lia|].
  destruct (Z.ltb_spec last batch_index_to_excl); intros Hnone Hsome.
  - split; [intros Hstop; apply Hnone; lia|]. intros Hstop.
    destruct Hsome as (weights & generated & Hlen & -> & Hout); [lia|].
    eexists. split; [exact Hout|].
    rewrite curve_indices, Hlen. f_equal; lia.
  - split; [intros Hstop; apply Hnone; lia|]. intros Hstop.
    destruct Hsome as (weights & generated & Hlen & -> & Hout); [lia|].
    eexists. split; [exact Hout|].
    rewrite curve_indices, Hlen. f_equal; lia.
Qed.

(** With the reversal the curve does leave its window: from a start that
    is not negative and with [batch_index_to_excl] not past
    [last_key_frame_position], the entry point always returns, and the
    generated keyframes sit on the [2 * (steps // 2 + 1)] frames from
    [batch_index_from] on, which include the excluded end
    [batch_index_to_excl] itself (also when the window is empty); the
    group returned holds a generated keyframe there whatever the previous
    group held. *)
Theorem reverted_curve_overshoots (batch_index_from : Z) (strength_from : float)
    (batch_index_to_excl : Z) (strength_to : float) (interpolation : string)
    (last : Z) (prev : option loc) (h : heap) :
  0 <= batch_index_from <= batch_index_to_excl →
  batch_index_to_excl <= last →
  interpolation ∈ shapes →
  let steps := batch_index_to_excl - batch_index_from in
  let out := load_keyframe np_cos batch_index_from strength_from batch_index_to_excl
               strength_to interpolation true last prev h in
  ∃ generated,
    returns_merge h prev generated out ∧
    map batch_index generated
    = py_range batch_index_from (batch_index_from + 2 * (steps / 2 + 1)) ∧
    batch_index_to_excl < batch_index_from + 2 * (steps / 2 + 1) ∧
    ∃ k, merge generated (previous_group h prev) !! batch_index_to_excl = Some k ∧
         k ∈ generated.
Proof.
  intros Hfrom Hlast Hshape steps out.
  destruct (curve_frames np_cos batch_index_from strength_from batch_index_to_excl
              strength_to interpolation true last prev h) as [_ Hsome]; [lia|lia|done|].
  fold out in Hsome. revert Hsome.
  unfold pairs_left, dropped_at_start, pairs_generated. fold steps.
  destruct (Z.ltb_spec batch_index_from 0); [lia|].
  destruct (Z.ltb_spec last batch_index_to_excl); [lia|]. intros Hsome.
  assert (Hover : steps < 2 * (steps / 2 + 1)).
  { pose proof (Z_div_mod_eq_full steps 2). pose proof (Z.mod_pos_bound steps 2). lia. }
  assert (Hhalf : 0 <= steps / 2) by (apply Z.div_pos; lia).
  destruct Hsome as (weights & generated & Hlen & Hgen & Hout); [lia|].
  assert (Hidx : map batch_index generated
                 = py_range batch_index_from (batch_index_from + 2 * (steps / 2 + 1))).
  { rewrite Hgen, curve_indices, Hlen. f_equal; lia. }
  exists generated. split; [exact Hout|]. split; [exact Hidx|]. split; [lia|].
  destruct (merge_generated_wins generated (previous_group h prev) batch_index_to_excl)
    as (k & Hk & Hin & _); [|by exists k].
  assert (Hto : batch_index_to_excl ∈ map batch_index generated).
  { rewrite Hidx. apply list_elem_of_lookup. exists (Z.to_nat steps).
    rewrite py_range_lookup by lia. f_equal. lia. }
  apply list_elem_of_fmap in Hto as (k & Hk & Hin). by exists k.
Qed.

End CurveWindow.

(** A window of [0, 4) with [last_key_frame_position = 0] leaves nothing;
    the empty window [-1, -1) with the reversal writes frame 0. *)
Lemma curve_writes_consecutive_frames_witness :
  let load := LatentKeyframeInterpolationNodeImport.load_keyframe (fun x => x) in
  fst (load 0 0%float 4 1%float "linear" false 0 None ∅)
    = Raise (IndexError (ArrayIndexOutOfBounds 0 0)) ∧
  ∃ generated,
    returns_merge ∅ None generated (load (-1) 0%float (-1) 1%float "linear" true 0 None ∅) ∧
    map batch_index generated = py_range 0 1.
Proof.
  intros load. split.
  - apply (curve_writes_consecutive_frames (fun x => x) 0 0%float 4 1%float "linear" false 0
             None ∅);
      [lia | lia | apply list_elem_of_In; simpl; auto | reflexivity].
  - apply (curve_writes_consecutive_frames (fun x => x) (-1) 0%float (-1) 1%float "linear"
             true 0 None ∅);
      [lia | lia | apply list_elem_of_In; simpl; auto | reflexivity].
Defined.

(** The window [0, 5) with [last_key_frame_position = 3] writes frames 0,
    1 and 2. *)
Lemma plain_curve_stays_in_window_witness :
  ∃ generated,
    returns_merge ∅ None generated
      (LatentKeyframeInterpolationNodeImport.load_keyframe (fun x => x)
         0 0%float 5 1%float "ease-in" false 3 None ∅) ∧
    map batch_index generated = py_range 0 3.
Proof.
  apply (plain_curve_stays_in_window (fun x => x) 0 0%float 5 1%float "ease-in" 3 None ∅);
    [lia | apply list_elem_of_In; simpl; auto | reflexivity].
Defined.

(** The window [0, 4) with the reversal writes frames 0 to 5. *)
Lemma reverted_curve_overshoots_witness :
  ∃ generated,
    returns_merge ∅ None generated
      (LatentKeyframeInterpolationNodeImport.load_keyframe (fun x => x)
         0 0%float 4 1%float "linear" true 4 None ∅) ∧
    map batch_index generated = py_range 0 6 ∧
    4 < 6 ∧
    ∃ k, merge generated ∅ !! 4 = Some k ∧ k ∈ generated.
Proof.
  apply (reverted_curve_overshoots (fun x => x) 0 0%float 4 1%float "linear" 4 None ∅);
    [lia | lia | apply list_elem_of_In; simpl; auto].
Defined.

(** ** Which strengths a curve writes *)

Section CurveShape.

Context (np_cos : float → float).

Import LatentKeyframeInterpolationNodeImport.

(** With the reversal, from a start that is not negative and with
    [batch_index_to_excl] not past [last_key_frame_position], the group
    returned is mirrored about the middle of the [2 * points] frames
    written ([points = steps // 2 + 1]): frame [j] and frame
    [2 * points - 1 - j] after [batch_index_from] hold the same strength,
    whatever the shape and whatever the previous group held. *)
Theorem reverted_curve_is_mirrored (batch_index_from : Z) (strength_from : float)
    (batch_index_to_excl : Z) (strength_to : float) (interpolation : string)
    (last : Z) (prev : option loc) (h : heap) :
  0 <= batch_index_from <= batch_index_to_excl →
  batch_index_to_excl <= last →
  interpolation ∈ shapes →
  let points := (batch_index_to_excl - batch_index_from) / 2 + 1 in
  let out := load_keyframe np_cos batch_index_from strength_from batch_index_to_excl
               strength_to interpolation true last prev h in
  ∃ r g, fst out = Ok r ∧ snd out !! r = Some g ∧
         ∀ j, 0 <= j < points →
              ∃ w, g !! (batch_index_from + j) = Some (Keyframe (batch_index_from + j) w) ∧
                   g !! (batch_index_from + (2 * points - 1 - j))
                   = Some (Keyframe (batch_index_from + (2 * points - 1 - j)) w).
Proof.
  intros Hfrom Hlast Hshape points out.
  assert (Hhalf : 0 <= (batch_index_to_excl - batch_index_from) / 2)
    by (apply Z.div_pos; lia).
  destruct (generate_ok np_cos batch_index_from strength_from batch_index_to_excl
              strength_to interpolation true) as (weights & frame_numbers & Hgen & Hlen);
    [lia|done|]. fold points in Hlen.
  destruct (generate_reverted np_cos _ _ _ _ _ _ _ Hgen) as [half Hws].
  assert (Hlenhalf : length half = Z.to_nat points).
  { rewrite Hws, length_app, length_rev in Hlen. lia. }
  destruct (curve_undropped np_cos batch_index_from strength_from batch_index_to_excl
              strength_to interpolation true last prev h weights frame_numbers)
    as (r & Hr & _ & Hg); [lia|lia|done| |].
  { intros ->. cbn [length] in Hlen. lia. }
  fold out in Hr, Hg. eexists r, _. split; [exact Hr|]. split; [exact Hg|].
  intros j Hj.
  destruct (lookup_lt_is_Some_2 half (Z.to_nat j)) as [w Hw]; [lia|].
  exists w. split.
  - replace (batch_index_from + j) with (batch_index_from + Z.of_nat (Z.to_nat j)) by lia.
    apply curve_lookup. rewrite Hws, lookup_app_l by lia. exact Hw.
  - replace (batch_index_from + (2 * points - 1 - j))
      with (batch_index_from + Z.of_nat (length half + (length half - S (Z.to_nat j)))) by lia.
    apply curve_lookup. rewrite Hws, lookup_app_r by lia.
    rewrite rev_lookup by lia. rewrite <- Hw. f_equal. lia.
Qed.

(** A linear curve of two points or more reaches [strength_to] exactly:
    from a start that is not negative and with [batch_index_to_excl] not
    past [last_key_frame_position], the group returned holds the very
    float [strength_to] on the last frame of the forward half, which
    without the reversal is frame [batch_index_to_excl - 1], and with the
    reversal also on the frame after it. *)
Theorem linear_curve_ends_at_strength_to (batch_index_from : Z) (strength_from : float)
    (batch_index_to_excl : Z) (strength_to : float) (revert : bool)
    (last : Z) (prev : option loc) (h : heap) :
  0 <= batch_index_from →
  batch_index_to_excl <= last →
  let steps := batch_index_to_excl - batch_index_from in
  let points := if revert then steps / 2 + 1 else steps in
  2 <= points →
  let out := load_keyframe np_cos batch_index_from strength_from batch_index_to_excl
               strength_to "linear" revert last prev h in
  let peak := batch_index_from + points - 1 in
  ∃ r g, fst out = Ok r ∧ snd out !! r = Some g ∧
         g !! peak = Some (Keyframe peak strength_to) ∧
         (revert = true → g !! (peak + 1) = Some (Keyframe (peak + 1) strength_to)).
Proof.
  intros Hfrom Hlast steps points Hpoints out peak.
  assert (Hsteps : 2 <= steps).
  { subst points. destruct revert; [|done].
    pose proof (Z_div_mod_eq_full steps 2). pose proof (Z.mod_pos_bound steps 2). lia. }
  destruct (generate_linear np_cos batch_index_from strength_from batch_index_to_excl
              strength_to revert Hpoints) as (half & frame_numbers & Hgen & Hlen & Hlast').
  fold steps points in Hlen.
  rewrite last_lookup in Hlast'.
  destruct (curve_undropped np_cos batch_index_from strength_from batch_index_to_excl
              strength_to "linear" revert last prev h _ _ ltac:(lia) Hlast Hgen)
    as (r & Hr & _ & Hg).
  { destruct revert, half; cbn [length] in Hlen; try done; lia. }
  fold out in Hr, Hg. eexists r, _. split; [exact Hr|]. split; [exact Hg|]. split.
  - replace peak with (batch_index_from + Z.of_nat (pred (length half))) by lia.
    apply curve_lookup. destruct revert; [rewrite lookup_app_l by lia|]; exact Hlast'.
  - intros ->.
    replace (peak + 1) with (batch_index_from + Z.of_nat (length half + 0)) by lia.
    apply curve_lookup. rewrite lookup_app_r by lia. rewrite rev_lookup by lia.
    rewrite <- Hlast'. f_equal. lia.
Qed.

(** An [interpolation] that is none of the four shapes, with end points
    that pass both checks: no branch assigns [weights], and the entry
    point raises [UnboundLocalError] at its first use; no group is
    returned. *)
Theorem unknown_shape_raises (batch_index_from : Z) (strength_from : float)
    (batch_index_to_excl : Z) (strength_to : float) (interpolation : string)
    (revert : bool) (last : Z) (prev : option loc) (h : heap) :
  batch_index_from <= batch_index_to_excl →
  ¬ (batch_index_from < 0 <= batch_index_to_excl) →
  interpolation ∉ shapes →
  fst (load_keyframe np_cos batch_index_from strength_from batch_index_to_excl
         strength_to interpolation revert last prev h)
  = Raise (UnboundLocalError "weights").
Proof.
  intros Hle Hsign Hshape.
  destruct (curve_outcome np_cos batch_index_from strength_from batch_index_to_excl
              strength_to interpolation revert last prev h) as [_ Hout].
  rewrite check_endpoints_ok in Hout by lia.
  assert (Hgen : generate np_cos batch_index_from strength_from batch_index_to_excl
                   strength_to interpolation revert = Raise (UnboundLocalError "weights")).
  { unfold generate.
    assert (0 <= (batch_index_to_excl - batch_index_from) / 2) by (apply Z.div_pos; lia).
    assert (Hindex : ∃ index,
              (if revert
               then np.linspace 0 1 ((batch_index_to_excl - batch_index_from) / 2 + 1)
               else np.linspace 0 1 (batch_index_to_excl - batch_index_from)) = Ok index).
    { destruct revert;
        [destruct (linspace_ok 0 1 ((batch_index_to_excl - batch_index_from) / 2 + 1))
           as (y & Hy & _)
        |destruct (linspace_ok 0 1 (batch_index_to_excl - batch_index_from))
           as (y & Hy & _)]; try lia; by exists y. }
    destruct Hindex as [index ->]. cbn [mbind result_bind].
    unfold shape_weights, shapes in *.
    repeat match goal with
           | |- context [String.eqb interpolation ?s] =>
               destruct (String.eqb_spec interpolation s) as [->|_];
               [exfalso; apply Hshape; apply list_elem_of_In; simpl; auto|]
           end.
    done. }
  by rewrite Hgen in Hout.
Qed.

End CurveShape.

(** The window [0, 4) with the reversal and the shape ease-in: frames 0
    and 5, 1 and 4, 2 and 3 hold the same strength. *)
Lemma reverted_curve_is_mirrored_witness :
  let out := LatentKeyframeInterpolationNodeImport.load_keyframe (fun x => x)
               0 0%float 4 1%float "ease-in" true 4 None ∅ in
  ∃ r g, fst out = Ok r ∧ snd out !! r = Some g ∧
         ∀ j, 0 <= j < 3 →
              ∃ w, g !! (0 + j) = Some (Keyframe (0 + j) w) ∧
                   g !! (0 + (2 * 3 - 1 - j)) = Some (Keyframe (0 + (2 * 3 - 1 - j)) w).
Proof.
  apply (reverted_curve_is_mirrored (fun x => x) 0 0%float 4 1%float "ease-in" 4 None ∅);
    [lia | lia | apply list_elem_of_In; simpl; auto].
Defined.

(** The linear curve from 0.25 to 0.75 over [0, 4) with the reversal:
    frames 2 and 3 hold 0.75. *)
Lemma linear_curve_ends_at_strength_to_witness :
  let out := LatentKeyframeInterpolationNodeImport.load_keyframe (fun x => x)
               0 0.25%float 4 0.75%float "linear" true 4 None ∅ in
  ∃ r g, fst out = Ok r ∧ snd out !! r = Some g ∧
         g !! 2 = Some (Keyframe 2 0.75%float) ∧
         (true = true → g !! 3 = Some (Keyframe 3 0.75%float)).
Proof.
  apply (linear_curve_ends_at_strength_to (fun x => x) 0 0.25%float 4 0.75%float true 4
           None ∅);
    [lia | lia | vm_compute; discriminate].
Defined.

(** The shape ["cubic"] over the window [0, 4). *)
Lemma unknown_shape_raises_witness :
  fst (LatentKeyframeInterpolationNodeImport.load_keyframe (fun x => x)
         0 0%float 4 1%float "cubic" false 4 None ∅)
  = Raise (UnboundLocalError "weights").
Proof.
  apply (unknown_shape_raises (fun x => x) 0 0%float 4 1%float "cubic" false 4 None ∅);
    [lia | lia |].
  intros Hin. apply list_elem_of_In in Hin. simpl in Hin.
  repeat destruct Hin as [Hin|Hin]; try discriminate Hin. exact Hin.
Defined.

(** * Further properties of the groups returned *)

(** ** Groups built through [add] *)

Lemma add_indexed (k : LatentKeyframeImport) (g : gmap Z LatentKeyframeImport) :
  indexed g → indexed (Group.add k g).
Proof.
  intros Hg i k' Hi. unfold Group.add in Hi.
  destruct (g !! batch_index k) eqn:Hk; [by apply Hg|].
  destruct (decide (batch_index k = i)) as [<-|Hne].
  - rewrite lookup_insert_eq in Hi. by inversion Hi.
  - rewrite lookup_insert_ne in Hi by done. by apply Hg.
Qed.

Lemma add_all_indexed (ks : list LatentKeyframeImport) (g : gmap Z LatentKeyframeImport) :
  indexed g → indexed (Group.add_all ks g).
Proof.
  revert g. induction ks as [|k ks IH]; intros g Hg; [done|].
  rewrite add_all_cons. by apply IH, add_indexed.
Qed.

(** What an entry point returns is indexed, whatever it was given. *)
Lemma merge_indexed (generated : list LatentKeyframeImport)
    (previous : gmap Z LatentKeyframeImport) :
  indexed (merge generated previous).
Proof.
  unfold merge. do 2 apply add_all_indexed. intros i k Hi. by rewrite lookup_empty in Hi.
Qed.

(** Looking for a frame index among the keyframes of an indexed group
    finds what the group holds there. *)
Lemma find_keyframes (g : gmap Z LatentKeyframeImport) (i : Z) :
  indexed g →
  List.find (fun k => bool_decide (batch_index k = i)) (Group.keyframes g) = g !! i.
Proof.
  intros Hg.
  assert (Hheld : ∀ k, k ∈ Group.keyframes g ↔ ∃ j, g !! j = Some k).
  { intros k. unfold Group.keyframes. rewrite list_elem_of_fmap. split.
    - intros ([j k'] & -> & Hin). exists j. by apply elem_of_map_to_list.
    - intros [j Hj]. exists (j, k). split; [done|]. by apply elem_of_map_to_list. }
  destruct (List.find _ _) as [k|] eqn:Hfind.
  - apply find_some in Hfind as [Hin Hi]. apply bool_decide_eq_true in Hi.
    apply list_elem_of_In, Hheld in Hin as [j Hj].
    pose proof (Hg j k Hj). by subst.
  - destruct (g !! i) as [k|] eqn:Hi; [|done].
    assert (Hin : k ∈ Group.keyframes g) by (apply Hheld; by exists i).
    apply list_elem_of_In in Hin.
    pose proof (find_none _ _ Hfind _ Hin) as Hno. cbn in Hno.
    apply bool_decide_eq_false in Hno. by pose proof (Hg i k Hi).
Qed.

(** Every frame of a merge: the first generated keyframe with that index,
    or else what the previous group held. *)
Lemma merge_lookup (generated : list LatentKeyframeImport)
    (previous : gmap Z LatentKeyframeImport) (i : Z) :
  indexed previous →
  merge generated previous !! i =
  match List.find (fun k => bool_decide (batch_index k = i)) generated with
  | Some k => Some k
  | None => previous !! i
  end.
Proof.
  intros Hprev.
  destruct (List.find _ generated) as [k|] eqn:Hfind; [by apply merge_generated_first|].
  unfold merge. rewrite add_all_fresh.
  - by apply find_keyframes.
  - by rewrite add_all_fresh by apply lookup_empty.
Qed.

Lemma merge_nothing (previous : gmap Z LatentKeyframeImport) :
  indexed previous → merge [] previous = previous.
Proof. intros Hprev. apply map_eq. intros i. by rewrite merge_lookup. Qed.

(** ** The batched entry point over a previous group *)

(** Given a list of floats and a previous group that is indexed, the
    batched entry point returns a new group that holds item [i] on every
    frame [i] from 0 to [n - 1], whatever the previous group held there,
    and on every other frame what the previous group held. *)
Theorem batched_over_previous (items : list float) (prev : option loc) (h : heap) :
  indexed (previous_group h prev) →
  let out := LatentKeyframeBatchedGroupNodeImport.load_keyframe (IterableValue items) prev h in
  ∃ r g, fst out = Ok r ∧ (r ∉ dom h) ∧ snd out !! r = Some g ∧
         ∀ i, g !! i = if (0 <=? i) && (i <? Z.of_nat (length items))
                       then Keyframe i <$> items !! Z.to_nat i
                       else previous_group h prev !! i.
Proof.
  intros Hprev out.
  destruct (batched_outcome (IterableValue items) prev h) as [_ (r & Hr & Hfresh & Hg)].
  fold out in Hr, Hg. eexists r, _. split; [exact Hr|]. split; [exact Hfresh|].
  split; [exact Hg|]. intros i. rewrite merge_lookup by done.
  unfold batched_keyframes, LatentKeyframeBatchedGroupNodeImport.enumerate.
  pose proof (batched_find items 0 i) as Hfind.
  cbn [Nat.add] in Hfind. change (Z.of_nat 0) with 0 in Hfind.
  rewrite Nat.sub_0_r in Hfind. rewrite Hfind.
  destruct (Z.leb_spec 0 i) as [Hi|Hi]; [|done]. cbn [andb].
  destruct (Z.ltb_spec i (Z.of_nat (length items))) as [Hlt|Hge].
  - destruct (lookup_lt_is_Some_2 items (Z.to_nat i)) as [x ->]; [lia|]. done.
  - rewrite (proj2 (lookup_ge_None items (Z.to_nat i))) by lia. done.
Qed.

(** Two items over a previous group that holds frames 1 and 5. *)
Lemma batched_over_previous_witness :
  let previous : gmap Z LatentKeyframeImport :=
    <[1 := Keyframe 1 2%float]> {[5 := Keyframe 5 3%float]} in
  let out := LatentKeyframeBatchedGroupNodeImport.load_keyframe
               (IterableValue [0.5%float; 0.25%float]) (Some 1%positive)
               {[1%positive := previous]} in
  ∃ r g, fst out = Ok r ∧ (r ∉ dom ({[1%positive := previous]} : heap)) ∧
         snd out !! r = Some g ∧
         ∀ i, g !! i = if (0 <=? i) && (i <? 2)
                       then Keyframe i <$> [0.5%float; 0.25%float] !! Z.to_nat i
                       else previous_group {[1%positive := previous]} (Some 1%positive) !! i.
Proof.
  intros previous out.
  apply (batched_over_previous [0.5%float; 0.25%float] (Some 1%positive)
           {[1%positive := previous]}).
  intros i k Hi. change (previous !! i = Some k) in Hi. unfold previous in Hi.
  destruct (decide (i = 1)) as [->|H1]; [by inversion Hi|].
  destruct (decide (i = 5)) as [->|H5]; [by inversion Hi|].
  rewrite lookup_insert_ne, lookup_singleton_ne in Hi by done. discriminate Hi.
Defined.

(** ** Entry points that generate nothing *)

(** With the empty index string, or with [strengths] a float or an int,
    nothing is generated: the entry point returns a copy of the previous
    group, that is a new reference to a group that holds the same
    keyframes, and the group it was given stays as it was. *)
Theorem nothing_generated_copies_previous (prev : option loc) (h : heap) :
  indexed (previous_group h prev) →
  let copy (out : result loc * heap) :=
    keeps h out ∧
    ∃ r, fst out = Ok r ∧ (r ∉ dom h) ∧ snd out !! r = Some (previous_group h prev) in
  (∀ (py_float : string → option float) (latent_image_opt : option Z),
     copy (LatentKeyframeGroupNodeImport.load_keyframes py_float "" prev latent_image_opt h)) ∧
  (∀ x, copy (LatentKeyframeBatchedGroupNodeImport.load_keyframe (FloatValue x) prev h)) ∧
  (∀ n, copy (LatentKeyframeBatchedGroupNodeImport.load_keyframe (IntValue n) prev h)).
Proof.
  intros Hprev copy.
  assert (Hcopy : ∀ out, keeps h out → returns_merge h prev [] out → copy out).
  { intros out Hkeeps (r & Hr & Hfresh & Hg). split; [done|]. exists r.
    split; [done|]. split; [done|]. by rewrite Hg, merge_nothing. }
  split; [|split].
  - intros py_float latent_image_opt.
    destruct (load_keyframes_outcome py_float "" prev latent_image_opt h) as [Hkeeps Hout].
    by apply Hcopy.
  - intros x. destruct (batched_outcome (FloatValue x) prev h) as [Hkeeps Hout].
    by apply Hcopy.
  - intros n. destruct (batched_outcome (IntValue n) prev h) as [Hkeeps Hout].
    by apply Hcopy.
Qed.

(** The strength [1.0] given to the batched entry point, over a previous
    group that holds frame 5. *)
Lemma nothing_generated_copies_previous_witness :
  let h : heap := {[1%positive := {[5 := Keyframe 5 3%float]}]} in
  let out := LatentKeyframeBatchedGroupNodeImport.load_keyframe (FloatValue 1%float)
               (Some 1%positive) h in
  keeps h out ∧
  ∃ r, fst out = Ok r ∧ (r ∉ dom h) ∧
       snd out !! r = Some (previous_group h (Some 1%positive)).
Proof.
  intros h out.
  apply (proj1 (proj2 (nothing_generated_copies_previous (Some 1%positive) h
                         ltac:(intros i k Hi;
                               change (({[5 := Keyframe 5 3%float]} : gmap Z _) !! i = Some k)
                                 in Hi;
                               apply lookup_singleton_Some in Hi as [<- <-];
                               reflexivity)))).
Defined.

(** ** The single add without a previous group *)

(** Given no previous group, or a reference to an empty one (which is
    falsy), the single-add entry point allocates a group and returns the
    new reference to it; the group holds the one keyframe, and an empty
    group that was passed stays empty. *)
Theorem single_add_without_previous (batch_index : Z) (strength : float)
    (prev : option loc) (h : heap) :
  previous_group h prev = ∅ →
  let r := fresh (dom h) in
  (r ∉ dom h) ∧
  LatentKeyframeNodeImport.load_keyframe batch_index strength prev h
  = (Ok r, <[r := {[batch_index := Keyframe batch_index strength]}]> h).
Proof.
  intros Hprev r. split; [apply is_fresh|].
  unfold LatentKeyframeNodeImport.load_keyframe. rewrite bind_run.
  assert (Hnew : prev_or_new prev h = new_group h).
  { destruct prev as [l|]; [|done]. cbn [prev_or_new previous_group] in *.
    rewrite Hprev. done. }
  rewrite Hnew. unfold new_group. fold r. rewrite bind_run.
  unfold group_add, deref. rewrite lookup_insert_eq. cbn [default].
  rewrite insert_insert_eq. unfold Group.add, id. rewrite lookup_empty.
  by rewrite insert_empty.
Qed.

(** A first keyframe on frame 3, given a reference to an empty group. *)
Lemma single_add_without_previous_witness :
  let h : heap := {[1%positive := ∅]} in
  (fresh (dom h) ∉ dom h) ∧
  LatentKeyframeNodeImport.load_keyframe 3 0.5%float (Some 1%positive) h
  = (Ok (fresh (dom h)), <[fresh (dom h) := {[3 := Keyframe 3 0.5%float]}]> h).
Proof.
  intros h.
  apply (single_add_without_previous 3 0.5%float (Some 1%positive) h).
  reflexivity.
Defined.
